(** * webapputil: request-ID middleware and RFC 7807 problem responses

    A shallow embedding of the two Go packages of the repository,

    - [webapputil] (request_id.go): [RequestID], [RequestIDMiddleware];
    - [problem]: the [Problem] struct, [contentType], [SendProblem];

    together with the parts of the Go standard library they call
    ([context], [net/http], [net/textproto], [encoding/json]).

    Go computations are state-passing functions that either return or
    panic; Go interface values of type [any] are a small tagged union;
    header maps are finite maps from strings to lists of strings. *)

From Stdlib Require Import ZArith Ascii String List Lia DecimalString.
From stdpp Require Import base decidable option strings gmap list.

Local Open Scope string_scope.
Local Open Scope Z_scope.

(** ** Go computations: state, return, panic *)

(** The outcome of running a Go function: a normal return, or a panic
    carrying its message. *)
Inductive Outcome (A : Type) : Type :=
| Return (a : A)
| Panic (msg : string).
Arguments Return {A} a.
Arguments Panic {A} msg.

(** A Go function body running over a world [S].  The world is returned in
    both cases: effects performed before a panic stay performed. *)
Definition Go (S A : Type) : Type := S -> Outcome A * S.

Definition go_ret {S A} (a : A) : Go S A := fun s => (Return a, s).

Definition go_bind {S A B} (m : Go S A) (k : A -> Go S B) : Go S B :=
  fun s =>
    match m s with
    | (Return a, s') => k a s'
    | (Panic msg, s') => (Panic msg, s')
    end.

(** A pure expression that may panic, run inside a computation. *)
Definition go_eval {S A} (o : Outcome A) : Go S A := fun s => (o, s).

Definition go_modify {S} (f : S -> S) : Go S unit := fun s => (Return tt, f s).

Definition go_gets {S A} (f : S -> A) : Go S A := fun s => (Return (f s), s).

Declare Scope go_scope.
Delimit Scope go_scope with go.
Notation "x <- m ;; k" := (go_bind m (fun x => k))
  (at level 62, m at next level, right associativity) : go_scope.
Notation "m ;;; k" := (go_bind m (fun _ => k))
  (at level 62, right associativity) : go_scope.

Definition returns {A} (o : Outcome A) : bool :=
  match o with Return _ => true | Panic _ => false end.

(** ** Interface values and package [context] *)

(** Dynamic values of type [any], as far as contexts hold them: the nil
    interface, strings, ints, the one value of the unexported struct type
    [requestIDKeyType], and values of any other comparable type, given by
    the name of the type and a printed representation of the value.  Go's
    [==] on interface values (same dynamic type, equal values) is equality
    of this type. *)
Inductive Any : Type :=
| nil_any
| string_any (s : string)
| int_any (z : Z)
| requestIDKeyType
| other_any (type_name : string) (repr : string).

Global Instance Any_eq_dec : EqDecision Any.
Proof. solve_decision. Defined.

(** [context.Context] values built by the constructors of package context.
    [cancelCtx] stands for the contexts of WithCancel, WithDeadline and
    WithTimeout, which answer [Value] through their parent. *)
Inductive Context : Type :=
| backgroundCtx
| todoCtx
| valueCtx (parent : Context) (key val : Any)
| cancelCtx (parent : Context).

Definition context_Background : Context := backgroundCtx.

(** [func (c *valueCtx) Value(key any) any]: the nearest enclosing pair whose
    key equals [key]; nil at the root. *)
Fixpoint Value (c : Context) (key : Any) : Any :=
  match c with
  | backgroundCtx => nil_any
  | todoCtx => nil_any
  | valueCtx parent k v => if decide (k = key) then v else Value parent key
  | cancelCtx parent => Value parent key
  end.

(** [context.WithValue(parent, key, val)].  A nil parent and a nil key
    panic. *)
Definition context_WithValue (parent : option Context) (key val : Any)
  : Outcome Context :=
  match parent with
  | None => Panic "cannot create context from nil parent"
  | Some p =>
      if decide (key = nil_any) then Panic "nil key"
      else Return (valueCtx p key val)
  end.

(** The type assertion [x.(string)]. *)
Definition dynamic_type_name (x : Any) : string :=
  match x with
  | nil_any => "nil"
  | string_any _ => "string"
  | int_any _ => "int"
  | requestIDKeyType => "webapputil.requestIDKeyType"
  | other_any t _ => t
  end.

Definition assert_string (x : Any) : Outcome string :=
  match x with
  | string_any s => Return s
  | _ => Panic ("interface conversion: interface {} is "
                  ++ dynamic_type_name x ++ ", not string")
  end.

(** ** Package [net/http]: headers and requests *)

(** [http.Header], a [map[string][]string]. *)
Abbreviation Header := (gmap string (list string)).

(** The request body is a reference to a stream; copies of a request share
    it. *)
Definition ReadCloser : Type := nat.

(** [http.Request], the fields a handler reads, and the unexported [ctx]
    (nil until a context is attached). *)
Record Request : Type := mkRequest {
  Method : string;
  URL : string;
  Proto : string;
  ReqHeader : Header;
  Body : ReadCloser;
  Host : string;
  RemoteAddr : string;
  RequestURI : string;
  ctx : option Context
}.

(** [func (r *Request) Context() context.Context] *)
Definition Request_Context (r : Request) : Context :=
  match ctx r with
  | Some c => c
  | None => context_Background
  end.

(** [func (r *Request) WithContext(ctx context.Context) *Request]: a shallow
    copy of [r] with the context replaced. *)
Definition Request_WithContext (r : Request) (c : option Context)
  : Outcome Request :=
  match c with
  | None => Panic "nil context"
  | Some c' =>
      Return {| Method := Method r; URL := URL r; Proto := Proto r;
                ReqHeader := ReqHeader r; Body := Body r; Host := Host r;
                RemoteAddr := RemoteAddr r; RequestURI := RequestURI r;
                ctx := Some c' |}
  end.

(** ** Package [webapputil] (request_id.go) *)

(** [type requestIDKeyType struct{}] is the constructor [requestIDKeyType]
    of [Any]; [var requestIDKey = requestIDKeyType{}]. *)
Definition requestIDKey : Any := requestIDKeyType.

(** [func RequestID(r *http.Request) string] *)
Definition RequestID (r : Request) : Outcome string :=
  assert_string (Value (Request_Context r) requestIDKey).

Section RequestIDMiddleware.
(** [S] is everything the generator and the handlers may read and change;
    [W] is the type of response writers handed to handlers.  The request
    is handed to the generator and to the handler as a value. *)
Context {S W : Type}.

(** [type RequestIDFunc func(req *http.Request) string] *)
Definition RequestIDFunc : Type := Request -> Go S string.

(** [http.Handler], with its method [ServeHTTP(w, r)], and the adapter
    [http.HandlerFunc]. *)
Definition Handler : Type := W -> Request -> Go S unit.

Definition ServeHTTP (h : Handler) : W -> Request -> Go S unit := h.

Definition HandlerFunc (f : W -> Request -> Go S unit) : Handler := f.

(** [func RequestIDMiddleware(next http.Handler, fn RequestIDFunc)
    http.Handler] *)
Definition RequestIDMiddleware (next : Handler) (fn : RequestIDFunc)
  : Handler :=
  HandlerFunc (fun w r =>
    (reqID <- fn r ;;
     ctx <- go_eval (context_WithValue (Some (Request_Context r))
                       requestIDKey (string_any reqID)) ;;
     r' <- go_eval (Request_WithContext r (Some ctx)) ;;
     ServeHTTP next w r')%go).
End RequestIDMiddleware.
Arguments RequestIDFunc : clear implicits.
Arguments Handler : clear implicits.

(** ** Package [net/textproto]: canonical header keys *)

Definition byte_val (c : ascii) : Z := Z.of_N (N_of_ascii c).

Definition byte_of (n : Z) : ascii := ascii_of_N (Z.to_N n).

Definition in_range (lo hi : Z) (c : ascii) : bool :=
  (lo <=? byte_val c) && (byte_val c <=? hi).

Definition is_lower_alpha : ascii -> bool := in_range 97 122.
Definition is_upper_alpha : ascii -> bool := in_range 65 90.
Definition is_digit : ascii -> bool := in_range 48 57.

(** ['a' - 'A'] *)
Definition toLower : Z := 32.

(** [validHeaderFieldByte]: the token characters of RFC 7230. *)
Definition validHeaderFieldByte (c : ascii) : bool :=
  is_digit c || is_lower_alpha c || is_upper_alpha c
  || existsb (Ascii.eqb c) (list_ascii_of_string "!#$%&'*+-.^_`|~").

(** The first loop of [canonicalMIMEHeaderKey]: [None] when some byte is
    neither a token byte nor a space (the key is returned as it is),
    otherwise whether a space was seen ([noCanon]). *)
Fixpoint header_key_noCanon (a : string) (noCanon : bool) : option bool :=
  match a with
  | EmptyString => Some noCanon
  | String c rest =>
      if validHeaderFieldByte c then header_key_noCanon rest noCanon
      else if Ascii.eqb c " " then header_key_noCanon rest true
      else None
  end.

(** The second loop: first letter and every letter after a dash in upper
    case, the others in lower case. *)
Fixpoint canonical_case (upper : bool) (a : string) : string :=
  match a with
  | EmptyString => EmptyString
  | String c rest =>
      let c' :=
        if upper && is_lower_alpha c then byte_of (byte_val c - toLower)
        else if negb upper && is_upper_alpha c
             then byte_of (byte_val c + toLower)
             else c in
      String c' (canonical_case (Ascii.eqb c' "-") rest)
  end.

Definition canonicalMIMEHeaderKey (a : string) : string :=
  match header_key_noCanon a false with
  | None => a
  | Some true => a
  | Some false => canonical_case true a
  end.

(** The quick check of [CanonicalMIMEHeaderKey]: [true] when a letter in the
    wrong case is met before any invalid byte. *)
Fixpoint needs_canonical_case (upper : bool) (s : string) : bool :=
  match s with
  | EmptyString => false
  | String c rest =>
      if negb (validHeaderFieldByte c) then false
      else if upper && is_lower_alpha c then true
      else if negb upper && is_upper_alpha c then true
      else needs_canonical_case (Ascii.eqb c "-") rest
  end.

(** [textproto.CanonicalMIMEHeaderKey] *)
Definition CanonicalMIMEHeaderKey (s : string) : string :=
  if needs_canonical_case true s then canonicalMIMEHeaderKey s else s.

(** [func (h Header) Set(key, value string)]:
    [h[CanonicalMIMEHeaderKey(key)] = []string{value}]. *)
Definition Header_Set (h : Header) (key value : string) : Header :=
  <[CanonicalMIMEHeaderKey key := [value]]> h.

(** [func (h Header) Get(key string) string] *)
Definition Header_Get (h : Header) (key : string) : string :=
  match h !! CanonicalMIMEHeaderKey key with
  | Some (v :: _) => v
  | _ => ""
  end.

(** ** Package [net/http]: response writers *)

(** Go error values, and the interface type [error] whose nil is [None]. *)
Inductive error_value : Type :=
| UnsupportedTypeError (type_name : string)
| errorString (msg : string).

Abbreviation error := (option error_value).

(** [http.ResponseWriter].  [Header_of] is the map [w.Header()] returns and
    [Header_store] what an assignment through that map does to the writer:
    the map is shared with the writer, not a copy. *)
Class ResponseWriter (W : Type) : Type := {
  Header_of : W -> Header;
  Header_store : Header -> W -> W;
  WriteHeader : Z -> Go W unit;
  Write : string -> Go W (Z * error)
}.

(** [w.Header().Set(key, value)] *)
Definition ResponseWriter_Header_Set `{ResponseWriter W} (key value : string)
  : Go W unit :=
  (h <- go_gets Header_of ;;
   go_modify (Header_store (Header_Set h key value)))%go.

(** ** Package [unicode/utf8] *)

Definition RuneError : Z := 65533.

(** The table [first]: what the first byte of a sequence says about it.
    [as_] is ASCII, [xx] an invalid first byte; otherwise the low three bits
    give the length and the high four the index into [acceptRanges]. *)
Definition as_ : Z := 240.
Definition xx : Z := 241.

Definition first (b : Z) : Z :=
  if b <? 128 then as_
  else if b <? 194 then xx
  else if b <? 224 then 2
  else if b =? 224 then 19
  else if b <? 237 then 3
  else if b =? 237 then 35
  else if b <? 240 then 3
  else if b =? 240 then 52
  else if b <? 244 then 4
  else if b =? 244 then 68
  else xx.

(** [acceptRanges]: the bounds on the second byte. *)
Definition acceptRanges (i : Z) : Z * Z :=
  if i =? 0 then (128, 191)
  else if i =? 1 then (160, 191)
  else if i =? 2 then (128, 159)
  else if i =? 3 then (144, 191)
  else if i =? 4 then (128, 143)
  else (0, 0).

Definition locb : Z := 128.
Definition hicb : Z := 191.
Definition maskx : Z := 63.
Definition mask2 : Z := 31.
Definition mask3 : Z := 15.
Definition mask4 : Z := 7.

Definition byte_at (s : string) (i : nat) : Z :=
  match String.get i s with
  | Some c => byte_val c
  | None => 0
  end.

(** [utf8.DecodeRuneInString]: the first rune of [s] and its width in
    bytes; [(RuneError, 1)] for an invalid encoding. *)
Definition DecodeRuneInString (s : string) : Z * Z :=
  let n := Z.of_nat (String.length s) in
  if n <? 1 then (RuneError, 0)
  else
    let s0 := byte_at s 0 in
    let x := first s0 in
    if x >=? as_ then ((if x =? xx then RuneError else s0), 1)
    else
      let sz := Z.land x 7 in
      let accept := acceptRanges (Z.shiftr x 4) in
      if n <? sz then (RuneError, 1)
      else
        let s1 := byte_at s 1 in
        if (s1 <? fst accept) || (snd accept <? s1) then (RuneError, 1)
        else if sz <=? 2
        then (Z.lor (Z.shiftl (Z.land s0 mask2) 6) (Z.land s1 maskx), 2)
        else
          let s2 := byte_at s 2 in
          if (s2 <? locb) || (hicb <? s2) then (RuneError, 1)
          else if sz <=? 3
          then (Z.lor (Z.lor (Z.shiftl (Z.land s0 mask3) 12)
                         (Z.shiftl (Z.land s1 maskx) 6))
                  (Z.land s2 maskx), 3)
          else
            let s3 := byte_at s 3 in
            if (s3 <? locb) || (hicb <? s3) then (RuneError, 1)
            else (Z.lor (Z.lor (Z.lor (Z.shiftl (Z.land s0 mask4) 18)
                                  (Z.shiftl (Z.land s1 maskx) 12))
                           (Z.shiftl (Z.land s2 maskx) 6))
                    (Z.land s3 maskx), 4).

(** ** Package [encoding/json] *)

Definition double_quote : ascii := "034"%char.
Definition backslash : ascii := "092"%char.
Definition newline : ascii := "010"%char.

(** [htmlSafeSet]: the ASCII bytes a JSON string holds unescaped when HTML
    escaping is on: 0x20 to 0x7f without the double quote, the backslash
    and the three characters [<], [>] and [&]. *)
Definition htmlSafeSet (c : ascii) : bool :=
  in_range 32 127 c
  && negb (existsb (Ascii.eqb c)
             [double_quote; backslash; "<"%char; ">"%char; "&"%char]).

Definition hex (n : Z) : ascii :=
  match String.get (Z.to_nat n) "0123456789abcdef" with
  | Some c => c
  | None => "0"%char
  end.

(** The switch of [appendString] on an ASCII byte that is not safe. *)
Definition escape_byte (b : ascii) : string :=
  if Ascii.eqb b backslash || Ascii.eqb b double_quote
  then String backslash (String b "")
  else if byte_val b =? 8 then String backslash "b"
  else if byte_val b =? 12 then String backslash "f"
  else if byte_val b =? 10 then String backslash "n"
  else if byte_val b =? 13 then String backslash "r"
  else if byte_val b =? 9 then String backslash "t"
  else String backslash
         (String "u" (String "0" (String "0"
            (String (hex (Z.shiftr (byte_val b) 4))
               (String (hex (Z.land (byte_val b) 15)) ""))))).

(** What stands for a byte that is not valid UTF-8: the replacement
    character U+FFFD in UTF-8 (encoders before the current one wrote it as
    an escape). *)
Definition replacement_character : string :=
  String (byte_of 239) (String (byte_of 191) (String (byte_of 189) "")).

(** What the loop of [appendString] does with the bytes after the first one
    of a multi-byte rune it has already decoded: it copies them (a valid
    rune) or skips them (U+2028 and U+2029, written as an escape). *)
Inductive tail_bytes : Type :=
| copy_tail (n : nat)
| skip_tail (n : nat).

(** The loop of [appendString(dst, src, escapeHTML = true)], byte by byte:
    where the Go loop advances its index by the width of a rune, the bytes
    it steps over are handled by [tail_bytes]. *)
Fixpoint appendString_loop (pending : tail_bytes) (src : string) : string :=
  match src with
  | EmptyString => EmptyString
  | String b rest =>
      match pending with
      | copy_tail (S n) => String b (appendString_loop (copy_tail n) rest)
      | skip_tail (S n) => appendString_loop (skip_tail n) rest
      | _ =>
          if byte_val b <? 128 then
            if htmlSafeSet b
            then String b (appendString_loop (copy_tail 0) rest)
            else escape_byte b ++ appendString_loop (copy_tail 0) rest
          else
            let '(c, size) := DecodeRuneInString src in
            if (c =? RuneError) && (size =? 1)
            then replacement_character
                   ++ appendString_loop (copy_tail 0) rest
            else if (c =? 8232) || (c =? 8233)
            then String backslash "u202"
                   ++ String (hex (Z.land c 15))
                        (appendString_loop (skip_tail (Z.to_nat (size - 1))) rest)
            else String b
                   (appendString_loop (copy_tail (Z.to_nat (size - 1))) rest)
      end
  end.

(** [appendString]: a Go string as a JSON string literal. *)
Definition appendString (src : string) : string :=
  String double_quote (appendString_loop (copy_tail 0) src
                         ++ String double_quote "").

(** [strconv.AppendInt(b, v, 10)] *)
Definition FormatInt (z : Z) : string :=
  DecimalString.NilZero.string_of_int (Z.to_int z).

(** A struct field as [encoding/json] sees it: the name in its tag and
    whether the tag says [omitempty]. *)
Record structField : Type := mkField {
  name : string;
  omitEmpty : bool
}.

(** Go values as reflection shows them to the encoder.  [GoNil] is a nil
    interface, pointer, map or slice; [GoUnsupported] a value of a type
    JSON has no form for (a channel, a function, a complex number). *)
#[local] Set Warnings "-register-all".
Inductive GoValue : Type :=
| GoNil
| GoBool (b : bool)
| GoInt (z : Z)
| GoString (s : string)
| GoSlice (elems : list GoValue)
| GoStruct (fields : list (structField * GoValue))
| GoUnsupported (type_name : string).

#[local] Set Warnings "register-all".

(** [isEmptyValue] *)
Definition isEmptyValue (v : GoValue) : bool :=
  match v with
  | GoNil => true
  | GoBool b => negb b
  | GoInt z => z =? 0
  | GoString s => Nat.eqb (String.length s) 0
  | GoSlice elems => Nat.eqb (List.length elems) 0
  | GoStruct _ => false
  | GoUnsupported _ => false
  end.

Inductive result (A : Type) : Type :=
| Ok (a : A)
| Err (e : error_value).
Arguments Ok {A} a.
Arguments Err {A} e.

Section encoders.
(** The encoder of the element or field values. *)
Variable encoder : GoValue -> result string.

(** [structEncoder.encode]: the loop over the fields.  [next] is the byte
    written before the next field that is not skipped. *)
Fixpoint structEncoder_fields (fs : list (structField * GoValue))
    (next : string) : result string :=
  match fs with
  | [] => Ok (if String.eqb next "{" then "{}" else "}")
  | (f, fv) :: fs' =>
      if omitEmpty f && isEmptyValue fv
      then structEncoder_fields fs' next
      else
        match encoder fv with
        | Err e => Err e
        | Ok val =>
            match structEncoder_fields fs' "," with
            | Err e => Err e
            | Ok rest =>
                Ok (next ++ appendString (name f) ++ ":" ++ val ++ rest)
            end
        end
  end.

(** [arrayEncoder.encode]: the elements, separated by commas. *)
Fixpoint arrayEncoder_elems (elems : list GoValue) (i : nat)
  : result string :=
  match elems with
  | [] => Ok "]"
  | x :: elems' =>
      match encoder x with
      | Err e => Err e
      | Ok val =>
          match arrayEncoder_elems elems' (S i) with
          | Err e => Err e
          | Ok rest =>
              Ok ((if Nat.ltb 0 i then "," else "") ++ val ++ rest)
          end
      end
  end.
End encoders.

(** [encodeState.reflectValue] *)
Fixpoint reflectValue (v : GoValue) : result string :=
  match v with
  | GoNil => Ok "null"
  | GoBool b => Ok (if b then "true" else "false")
  | GoInt z => Ok (FormatInt z)
  | GoString s => Ok (appendString s)
  | GoSlice elems =>
      match arrayEncoder_elems reflectValue elems 0 with
      | Err e => Err e
      | Ok rest => Ok ("[" ++ rest)
      end
  | GoStruct fields => structEncoder_fields reflectValue fields "{"
  | GoUnsupported t => Err (UnsupportedTypeError t)
  end.

(** [encodeState.marshal] *)
Definition marshal (v : GoValue) : result string := reflectValue v.

(** [func (enc *Encoder) Encode(v any) error] of the encoder
    [json.NewEncoder(w)]: the encoding of [v] followed by a newline, handed
    to [w.Write] in one call; nothing is written when [v] has no
    encoding. *)
Definition Encoder_Encode `{ResponseWriter W} (v : GoValue) : Go W error :=
  match marshal v with
  | Err e => go_ret (Some e)
  | Ok e =>
      let b := e ++ String newline "" in
      (res <- Write b ;; go_ret (snd res))%go
  end.

(** ** Package [net/http/httptest]: the response recorder *)

(** [httptest.ResponseRecorder]: a response writer that keeps what a handler
    sends.  [snapHeader] is the copy of the headers taken when the status
    line is written: later changes of [HeaderMap] are not part of the
    response. *)
Record ResponseRecorder : Type := mkRecorder {
  Code : Z;
  HeaderMap : Header;
  RecBody : string;
  snapHeader : option Header;
  wroteHeader : bool
}.

(** [httptest.NewRecorder()] *)
Definition NewRecorder : ResponseRecorder :=
  {| Code := 200; HeaderMap := ∅; RecBody := ""; snapHeader := None;
     wroteHeader := false |}.

Definition set_HeaderMap (h : Header) (rw : ResponseRecorder)
  : ResponseRecorder :=
  {| Code := Code rw; HeaderMap := h; RecBody := RecBody rw;
     snapHeader := snapHeader rw; wroteHeader := wroteHeader rw |}.

(** [checkWriteHeaderCode]: a status code has three digits. *)
Definition checkWriteHeaderCode (code : Z) : Outcome unit :=
  if (code <? 100) || (999 <? code)
  then Panic ("invalid WriteHeader code " ++ FormatInt code)
  else Return tt.

(** [func (rw *ResponseRecorder) WriteHeader(code int)]: the first call
    wins. *)
Definition Recorder_WriteHeader (code : Z) : Go ResponseRecorder unit :=
  fun rw =>
    if wroteHeader rw then (Return tt, rw)
    else
      match checkWriteHeaderCode code with
      | Panic msg => (Panic msg, rw)
      | Return _ =>
          (Return tt,
           {| Code := code; HeaderMap := HeaderMap rw; RecBody := RecBody rw;
              snapHeader := Some (HeaderMap rw); wroteHeader := true |})
      end.

(** [bodyAllowedForStatus]: the informational responses, 204 No Content
    and 304 Not Modified have no body. *)
Definition bodyAllowedForStatus (status : Z) : bool :=
  if (100 <=? status) && (status <=? 199) then false
  else if status =? 204 then false
  else if status =? 304 then false
  else true.

(** [http.ErrBodyNotAllowed] *)
Definition ErrBodyNotAllowed : error_value :=
  errorString
    "http: request method or response status code does not allow body".

Section Recorder.
(** [http.DetectContentType], the content sniffing of net/http, is not
    modelled: the recorder is given it. *)
Variable DetectContentType : string -> string.

(** [func (rw *ResponseRecorder) writeHeader(b []byte, str string)]: a
    body written before any status line implies status 200, and a
    sniffed Content-Type when none is set. *)
Definition Recorder_writeHeader (b : string) : Go ResponseRecorder unit :=
  fun rw =>
    if wroteHeader rw then (Return tt, rw)
    else
      let m := HeaderMap rw in
      let hasType := bool_decide (is_Some (m !! "Content-Type")) in
      let hasTE :=
        negb (String.eqb (Header_Get m "Transfer-Encoding") "") in
      let rw' :=
        if negb hasType && negb hasTE
        then set_HeaderMap
               (Header_Set m "Content-Type" (DetectContentType b)) rw
        else rw in
      Recorder_WriteHeader 200 rw'.

(** [func (rw *ResponseRecorder) Write(buf []byte) (int, error)]: the
    write is recorded also when the status does not allow a body and the
    error is returned. *)
Definition Recorder_Write (buf : string)
  : Go ResponseRecorder (Z * error) :=
  (Recorder_writeHeader buf ;;;
   go_modify (fun rw =>
     {| Code := Code rw; HeaderMap := HeaderMap rw;
        RecBody := RecBody rw ++ buf;
        snapHeader := snapHeader rw; wroteHeader := wroteHeader rw |}) ;;;
   code <- go_gets Code ;;
   if bodyAllowedForStatus code
   then go_ret (Z.of_nat (String.length buf), None)
   else go_ret (0, Some ErrBodyNotAllowed))%go.

Definition Recorder_ResponseWriter : ResponseWriter ResponseRecorder := {|
  Header_of := HeaderMap;
  Header_store := set_HeaderMap;
  WriteHeader := Recorder_WriteHeader;
  Write := Recorder_Write
|}.
End Recorder.

(** ** Package [problem] *)

Definition contentType : string := "application/problem+json".

(** [type Problem struct]; the field [Type] is [Type_] and [Instance] is
    [Instance_] here. *)
Record Problem : Type := mkProblem {
  Type_ : string;
  Title : string;
  Status : Z;
  Detail : string;
  Instance_ : string
}.

(** A [Problem] as the encoder sees it: the fields in the order of the
    declaration, each under the name of its tag, each with [omitempty]. *)
Definition Problem_fields (p : Problem) : list (structField * GoValue) :=
  [ ({| name := "type"; omitEmpty := true |}, GoString (Type_ p));
    ({| name := "title"; omitEmpty := true |}, GoString (Title p));
    ({| name := "status"; omitEmpty := true |}, GoInt (Status p));
    ({| name := "detail"; omitEmpty := true |}, GoString (Detail p));
    ({| name := "instance"; omitEmpty := true |}, GoString (Instance_ p)) ].

Definition Problem_value (p : Problem) : GoValue :=
  GoStruct (Problem_fields p).

(** [func SendProblem(w http.ResponseWriter, statusCode int,
    problem interface{}) error] *)
Definition SendProblem `{ResponseWriter W} (statusCode : Z)
    (problem : GoValue) : Go W error :=
  (ResponseWriter_Header_Set "Content-Type" contentType ;;;
   WriteHeader statusCode ;;;
   Encoder_Encode problem)%go.

(** * Observation and specification

    What follows is not code of the repository: wrappers that record the
    calls made on a function or a writer, the predicates and texts the
    properties are stated with, and sample values. *)

(** ** Observing the calls a middleware makes

    To speak about how often and in which order the middleware calls its
    two arguments, both are wrapped so that every call is appended to a
    log kept beside the world.  The wrapped functions still run on the
    world alone: they cannot touch the log. *)
Inductive Call (W : Type) : Type :=
| CallGenerator (r : Request)
| CallNext (w : W) (r : Request).
Arguments CallGenerator {W} r.
Arguments CallNext {W} w r.

Definition logged {S W A} (c : Call W) (m : Go S A)
  : Go (S * list (Call W)) A :=
  fun '(s, log) =>
    let '(o, s') := m s in (o, (s', (log ++ [c])%list)).

Definition logged_generator {S} (W : Type) (fn : RequestIDFunc S)
  : RequestIDFunc (S * list (Call W)) :=
  fun r => logged (CallGenerator r) (fn r).

Definition logged_handler {S W} (next : Handler S W)
  : Handler (S * list (Call W)) W :=
  fun w r => logged (CallNext w r) (next w r).

Definition is_generator_call {W} (c : Call W) : bool :=
  match c with CallGenerator _ => true | CallNext _ _ => false end.

(** The context of a request holds a request ID: some [valueCtx] on its
    chain has the key [requestIDKey].  The key type is unexported, so such
    a pair is only ever added by [RequestIDMiddleware]. *)
Fixpoint has_request_id (c : Context) : bool :=
  match c with
  | backgroundCtx => false
  | todoCtx => false
  | valueCtx parent k _ =>
      bool_decide (k = requestIDKey) || has_request_id parent
  | cancelCtx parent => has_request_id parent
  end.

(** ** Observing the calls made on a writer *)
Inductive WriterCall : Type :=
| CallHeaderStore (h : Header)
| CallWriteHeader (statusCode : Z)
| CallWrite (b : string).

(** A writer that records each call made on it, then behaves as the
    writer it wraps. *)
Definition Recording (W : Type) : Type := W * list WriterCall.

Definition recording {W A} (c : WriterCall) (m : Go W A)
  : Go (Recording W) A :=
  fun '(w, log) =>
    let '(o, w') := m w in (o, (w', (log ++ [c])%list)).

Global Instance Recording_ResponseWriter `{ResponseWriter W}
  : ResponseWriter (Recording W) := {|
  Header_of := fun '(w, _) => Header_of w;
  Header_store := fun h '(w, log) =>
    (Header_store h w, (log ++ [CallHeaderStore h])%list);
  WriteHeader := fun code => recording (CallWriteHeader code) (WriteHeader code);
  Write := fun b => recording (CallWrite b) (Write b)
|}.

(** ** A writer that fails

    A writer over a connection that is gone: it takes the headers and the
    status, and every [Write] fails. *)
Record brokenWriter : Type := mkBroken {
  brokenHeader : Header;
  brokenStatus : option Z
}.

Global Instance brokenWriter_ResponseWriter : ResponseWriter brokenWriter := {|
  Header_of := brokenHeader;
  Header_store := fun h w =>
    {| brokenHeader := h; brokenStatus := brokenStatus w |};
  WriteHeader := fun code => go_modify (fun w =>
    {| brokenHeader := brokenHeader w; brokenStatus := Some code |});
  Write := fun _ => go_ret (0, Some (errorString "write: broken pipe"))
|}.

(** ** Specification side: JSON objects *)

(** A JSON text written with single quotes in place of double quotes. *)
Definition json_text (s : string) : string :=
  string_of_list_ascii
    (map (fun c => if Ascii.eqb c "'" then double_quote else c)
       (list_ascii_of_string s)).

(** The members the struct encoder emits: every field except those that
    are tagged [omitempty] and hold the zero value of their type. *)
Definition emitted_fields (fs : list (structField * GoValue))
  : list (structField * GoValue) :=
  List.filter (fun '(f, fv) => negb (omitEmpty f && isEmptyValue fv)) fs.

(** The text of a JSON object, from its members (key and encoded value) in
    order. *)
Definition member_text (m : string * string) : string :=
  appendString (fst m) ++ ":" ++ snd m.

Definition object_text (members : list (string * string)) : string :=
  "{" ++ String.concat "," (map member_text members) ++ "}".

(** The members of the JSON object of a [Problem], as the specification
    words them: a field is a member exactly when it is not the zero value
    of its type. *)
Definition Problem_members (p : Problem) : list (string * string) :=
  ((if String.eqb (Type_ p) "" then []
    else [("type", appendString (Type_ p))])
   ++ (if String.eqb (Title p) "" then []
       else [("title", appendString (Title p))])
   ++ (if Status p =? 0 then [] else [("status", FormatInt (Status p))])
   ++ (if String.eqb (Detail p) "" then []
       else [("detail", appendString (Detail p))])
   ++ (if String.eqb (Instance_ p) "" then []
       else [("instance", appendString (Instance_ p))]))%list.

(** The request the middleware hands to the wrapped handler when the
    generator returned [id]. *)
Definition with_request_id (r : Request) (id : string) : Request :=
  {| Method := Method r; URL := URL r; Proto := Proto r;
     ReqHeader := ReqHeader r; Body := Body r; Host := Host r;
     RemoteAddr := RemoteAddr r; RequestURI := RequestURI r;
     ctx := Some (valueCtx (Request_Context r) requestIDKey
                    (string_any id)) |}.

(** ** Sample values *)

(** A request as the server hands it to the outermost handler. *)
Definition sample_request : Request :=
  {| Method := "GET"; URL := "/account/12345"; Proto := "HTTP/1.1";
     ReqHeader := {["Accept" := ["application/json"]]}; Body := 0%nat;
     Host := "example.com"; RemoteAddr := "192.0.2.1:1234";
     RequestURI := "/account/12345"; ctx := None |}.

(** The same request after some other middleware stored a value of its own
    in the context. *)
Definition sample_request_with_user : Request :=
  {| Method := "GET"; URL := "/account/12345"; Proto := "HTTP/1.1";
     ReqHeader := {["Accept" := ["application/json"]]}; Body := 0%nat;
     Host := "example.com"; RemoteAddr := "192.0.2.1:1234";
     RequestURI := "/account/12345";
     ctx := Some (cancelCtx (valueCtx backgroundCtx
                               (other_any "auth.userKey" "{}")
                               (string_any "alice"))) |}.

(** A generator that returns a fixed identifier, one that returns the
    empty string, and one that numbers the requests with a counter kept in
    the world. *)
Definition fixed_id {S} (id : string) : RequestIDFunc S :=
  fun _ => go_ret id.

Definition counter_id : RequestIDFunc Z :=
  fun _ n => (Return ("req-" ++ FormatInt n), n + 1).

(** A handler that does nothing. *)
Definition noop_handler {S W} : Handler S W := fun _ _ => go_ret tt.

(** The problem value of the scenario: type, title and status set. *)
Definition sample_problem : Problem :=
  {| Type_ := "https://example.com/x"; Title := "Bad"; Status := 400;
     Detail := ""; Instance_ := "" |}.

(** A content sniffer for the recorder of the examples. *)
Definition sample_DetectContentType (_ : string) : string :=
  "text/plain; charset=utf-8".

(** A handler that calls [RequestID] on its request and keeps what the
    call gave. *)
Definition reading_handler {W} : Handler (list (Outcome string)) W :=
  fun _ r seen => (Return tt, (seen ++ [RequestID r])%list).

(** The value of a [Problem] with only the title set. *)
Definition only_title (t : string) : Problem :=
  {| Type_ := ""; Title := t; Status := 0; Detail := ""; Instance_ := "" |}.

(** A writer whose connection is gone, before anything was sent. *)
Definition broken_connection : brokenWriter :=
  {| brokenHeader := ∅; brokenStatus := None |}.

(** A recorder on which a handler has already set a content type. *)
Definition recorder_with_json_type : ResponseRecorder :=
  set_HeaderMap {["Content-Type" := ["application/json"; "text/html"]]}
    NewRecorder.

(** The header map [SendProblem] stores, from the one it found. *)
Definition problem_header (h : Header) : Header :=
  Header_Set h "Content-Type" contentType.

Definition is_header_store (c : WriterCall) : bool :=
  match c with CallHeaderStore _ => true | _ => false end.

(** The text the encoder gives the values of the fields of [Problem]. *)
Definition field_text (v : GoValue) : string :=
  match v with
  | GoString s => appendString s
  | GoInt z => FormatInt z
  | _ => ""
  end.

(** The members of the object of a struct whose field values have the
    texts [txt]: name and text of every emitted field. *)
Definition struct_members (txt : GoValue -> string)
    (fs : list (structField * GoValue)) : list (string * string) :=
  map (fun '(f, fv) => (name f, txt fv)) (emitted_fields fs).

(** What follows the first member of an object: each further member after
    a comma, then the closing brace. *)
Fixpoint object_tail (members : list string) : string :=
  match members with
  | [] => "}"
  | m :: ms => "," ++ m ++ object_tail ms
  end.

(** ** Contexts derived downstream

    What code after the middleware does to a context: it adds a value of
    its own with [context.WithValue], or wraps the context in one that can
    be cancelled. *)
Inductive ctx_op : Type :=
| with_value (key val : Any)
| with_cancel.

(** The context after a sequence of such steps; it panics where
    [context.WithValue] does. *)
Fixpoint derive (c : Context) (ops : list ctx_op) : Outcome Context :=
  match ops with
  | [] => Return c
  | with_value key val :: ops' =>
      match context_WithValue (Some c) key val with
      | Return c' => derive c' ops'
      | Panic msg => Panic msg
      end
  | with_cancel :: ops' => derive (cancelCtx c) ops'
  end.

(** A step of code outside the package: its key is not [requestIDKey],
    whose type that code cannot name. *)
Definition foreign_op (op : ctx_op) : bool :=
  match op with
  | with_value key _ => negb (bool_decide (key = requestIDKey))
  | with_cancel => true
  end.

(** Every value a context holds under [requestIDKey] is a string. *)
Fixpoint request_ids_are_strings (c : Context) : bool :=
  match c with
  | backgroundCtx => true
  | todoCtx => true
  | valueCtx parent k v =>
      (if decide (k = requestIDKey)
       then match v with string_any _ => true | _ => false end
       else true)
      && request_ids_are_strings parent
  | cancelCtx parent => request_ids_are_strings parent
  end.

(** A request with another context. *)
Definition set_ctx (r : Request) (c : Context) : Request :=
  {| Method := Method r; URL := URL r; Proto := Proto r;
     ReqHeader := ReqHeader r; Body := Body r; Host := Host r;
     RemoteAddr := RemoteAddr r; RequestURI := RequestURI r;
     ctx := Some c |}.

(** ** Structs that embed [Problem]

    The example of the package comment extends [Problem] by embedding it
    as the first field of an application struct.  [encoding/json] then
    takes the fields of both levels together ([typeFields]): a name wins at
    the shallowest level where it occurs, a name that occurs twice at that
    level is dropped, and the fields kept are written in the order of the
    declaration, the embedded ones first.  All fields here carry a tag
    with their name. *)
Definition count_name (n : string) (fs : list (structField * GoValue))
  : nat :=
  List.length (List.filter (fun x => String.eqb (name (fst x)) n) fs).

Definition typeFields_embedding
    (embedded outer : list (structField * GoValue))
  : list (structField * GoValue) :=
  (List.filter
     (fun x => Nat.eqb (count_name (name (fst x)) outer) 0
               && Nat.eqb (count_name (name (fst x)) embedded) 1)
     embedded
   ++ List.filter
        (fun x => Nat.eqb (count_name (name (fst x)) outer) 1) outer)%list.

(** The names of the tags of [Problem]. *)
Definition Problem_names : list string :=
  ["type"; "title"; "status"; "detail"; "instance"].

(** Extension fields whose names are distinct from each other and from
    those of [Problem]. *)
Definition fresh_names (ext : list (structField * GoValue)) : bool :=
  forallb (fun x => Nat.eqb (count_name (name (fst x)) ext) 1) ext
  && forallb (fun n => Nat.eqb (count_name n ext) 0) Problem_names.

(** A struct that embeds [p] and declares the fields [ext] after it. *)
Definition embed_Problem (p : Problem) (ext : list (structField * GoValue))
  : GoValue :=
  GoStruct (typeFields_embedding (Problem_fields p) ext).

(** The text of a value that has an encoding. *)
Definition value_text (v : GoValue) : string :=
  match reflectValue v with
  | Ok t => t
  | Err _ => ""
  end.

Definition encodes (v : GoValue) : bool :=
  match reflectValue v with
  | Ok _ => true
  | Err _ => false
  end.

(** A [[]string]: nil, or the elements. *)
Definition strings_value (l : option (list string)) : GoValue :=
  match l with
  | None => GoNil
  | Some elems => GoSlice (map GoString elems)
  end.

(** [type problemExample1 struct] of the package comment:
    [problem.Problem], [Balance int] tagged balance, [Accounts []string]
    tagged accounts. *)
Record problemExample1 : Type := mkExample1 {
  ex1_Problem : Problem;
  Balance : Z;
  Accounts : option (list string)
}.

Definition problemExample1_value (e : problemExample1) : GoValue :=
  embed_Problem (ex1_Problem e)
    [ ({| name := "balance"; omitEmpty := false |}, GoInt (Balance e));
      ({| name := "accounts"; omitEmpty := false |},
       strings_value (Accounts e)) ].

(** [type invalidParam struct] and [type problemExample2 struct]. *)
Record invalidParam : Type := mkInvalidParam {
  Name : string;
  Reason : string
}.

Definition invalidParam_value (i : invalidParam) : GoValue :=
  GoStruct
    [ ({| name := "name"; omitEmpty := false |}, GoString (Name i));
      ({| name := "reason"; omitEmpty := false |}, GoString (Reason i)) ].

Record problemExample2 : Type := mkExample2 {
  ex2_Problem : Problem;
  InvalidParams : option (list invalidParam)
}.

Definition problemExample2_value (e : problemExample2) : GoValue :=
  embed_Problem (ex2_Problem e)
    [ ({| name := "invalid-params"; omitEmpty := false |},
       match InvalidParams e with
       | None => GoNil
       | Some l => GoSlice (map invalidParam_value l)
       end) ].

(** ** Struct declarations with embedded structs

    A struct as it is declared: fields with a JSON tag, and embedded
    (anonymous, untagged) structs, to any depth.  [typeFields] of
    [encoding/json] lists the fields the encoder writes: it walks the
    struct and the structs embedded in it, keeps for each name the field
    at the shallowest depth, drops a name that occurs twice at that depth,
    and orders what it keeps by the position in the declaration.  All
    fields here are exported and tagged, as the fields of this
    repository's structs are. *)
#[local] Set Warnings "-register-all".
Inductive GoField : Type :=
| named_field (tag : structField) (v : GoValue)
| embedded_struct (fields : list GoField).
#[local] Set Warnings "register-all".

(** A field found by the walk, with its index sequence: the positions of
    the embedded structs it lies in, then its own. *)
Record fieldEntry : Type := mkEntry {
  entry_index : list nat;
  entry_field : structField;
  entry_value : GoValue
}.

Section scan_fields.
Variable collect : GoField -> list nat -> list fieldEntry.
Variable index : list nat.

Fixpoint scan_fields (l : list GoField) (i : nat) : list fieldEntry :=
  match l with
  | [] => []
  | g :: l' => (collect g (index ++ [i]) ++ scan_fields l' (S i))%list
  end.
End scan_fields.

Fixpoint collect_field (f : GoField) (index : list nat) : list fieldEntry :=
  match f with
  | named_field tag v =>
      [{| entry_index := index; entry_field := tag; entry_value := v |}]
  | embedded_struct fields => scan_fields collect_field index fields 0%nat
  end.

(** The fields of a struct and of the structs embedded in it, in the
    order of the declaration, which is the order of their index
    sequences. *)
Definition collect_fields (fields : list GoField) : list fieldEntry :=
  scan_fields collect_field [] fields 0%nat.

Definition entry_name (e : fieldEntry) : string := name (entry_field e).

Definition entry_depth (e : fieldEntry) : nat :=
  List.length (entry_index e).

Definition min_depth (es : list fieldEntry) : nat :=
  match es with
  | [] => 0%nat
  | e :: es' =>
      fold_right (fun x d => Nat.min (entry_depth x) d) (entry_depth e) es'
  end.

(** [dominantField]: among the fields of one name the one at the least
    depth, unless two are there. *)
Definition dominantField (group : list fieldEntry) : option fieldEntry :=
  match List.filter
          (fun x => Nat.eqb (entry_depth x) (min_depth group)) group with
  | [e] => Some e
  | _ => None
  end.

Definition is_dominant (es : list fieldEntry) (e : fieldEntry) : bool :=
  match dominantField
          (List.filter (fun x => String.eqb (entry_name x) (entry_name e)) es)
  with
  | Some w => bool_decide (entry_index w = entry_index e)
  | None => false
  end.

(** [typeFields] *)
Definition typeFields (fields : list GoField)
  : list (structField * GoValue) :=
  map (fun e => (entry_field e, entry_value e))
    (List.filter (is_dominant (collect_fields fields))
       (collect_fields fields)).

(** The value of a struct with these fields, as the encoder sees it. *)
Definition struct_value (fields : list GoField) : GoValue :=
  GoStruct (typeFields fields).

(** Tagged fields, as a declaration. *)
Definition tagged_fields (fs : list (structField * GoValue)) : list GoField :=
  map (fun x => named_field (fst x) (snd x)) fs.

(** A struct such as the examples of the package comment: [Problem]
    embedded, then fields of its own. *)
Definition embedding_Problem (p : Problem)
    (ext : list (structField * GoValue)) : GoValue :=
  struct_value
    (embedded_struct (tagged_fields (Problem_fields p)) :: tagged_fields ext).

(** The other way to put a [Problem] into a struct: as a field with a tag
    of its own. *)
Definition holding_Problem (key : string) (p : Problem)
    (ext : list (structField * GoValue)) : GoValue :=
  struct_value
    (named_field {| name := key; omitEmpty := false |} (Problem_value p)
       :: tagged_fields ext).

(** What follows the first element of an array: each further element
    after a comma, then the closing bracket. *)
Fixpoint array_tail (elems : list string) : string :=
  match elems with
  | [] => "]"
  | x :: xs => "," ++ x ++ array_tail xs
  end.

(** The text of a [[]string]: null for the nil slice, else the array of
    its elements. *)
Definition strings_text (l : option (list string)) : string :=
  match l with
  | None => "null"
  | Some elems => "[" ++ String.concat "," (map appendString elems) ++ "]"
  end.

(** ** The example server of the package comment

    [sendResponse], [handleRoot] and the values they send.  The handler
    runs on its response writer and on the lines the standard logger has
    written (each line without the time the logger puts before it). *)

(** [func (v Values) Get(key string) string] of [net/url]. *)
Definition Values_Get (v : gmap string (list string)) (key : string)
  : string :=
  match v !! key with
  | Some (x :: _) => x
  | _ => ""
  end.

(** [err.Error()] *)
Definition Error (e : error_value) : string :=
  match e with
  | UnsupportedTypeError t => "json: unsupported type: " ++ t
  | errorString msg => msg
  end.

(** [func sendResponse(w http.ResponseWriter, statusCode int,
    detail interface{}) error] *)
Definition sendResponse `{ResponseWriter W} (statusCode : Z)
    (detail : GoValue) : Go W error :=
  (ResponseWriter_Header_Set "Content-Type" "application/json" ;;;
   WriteHeader statusCode ;;;
   Encoder_Encode detail)%go.

Definition on_writer {W A} (m : Go W A) : Go (W * list string) A :=
  fun '(w, log) => let '(o, w') := m w in (o, (w', log)).

(** [log.Printf] *)
Definition log_Printf {W} (line : string) : Go (W * list string) unit :=
  fun '(w, log) => (Return tt, (w, (log ++ [line])%list)).

(** The two problems [handleRoot] sends, and its greeting. *)
Definition example1 : problemExample1 :=
  {| ex1_Problem :=
       {| Type_ := "https://example.com/probs/out-of-credit";
          Title := "You do not have enough credit.";
          Status := 0;
          Detail := "Your current balance is 30, but that costs 50.";
          Instance_ := "/account/12345/msgs/abc" |};
     Balance := 30;
     Accounts := Some ["/account/12345"; "/account/67890"] |}.

Definition example2 : problemExample2 :=
  {| ex2_Problem :=
       {| Type_ := "https://example.net/validation-error";
          Title := "Your request parameters didn't validate.";
          Status := 0; Detail := ""; Instance_ := "" |};
     InvalidParams :=
       Some [ {| Name := "age"; Reason := "must be a positive integer" |};
              {| Name := "color";
                 Reason := "must be 'green', 'red' or 'blue'" |} ] |}.

Definition hello_value : GoValue :=
  GoStruct [ ({| name := "msg"; omitEmpty := false |},
              GoString "Hello, world!") ].

Section handleRoot.
(** [r.ParseForm()], the parsing of the query and the body of net/http, is
    not modelled: the handler is given the form it leaves in [r.Form] and
    the error it returns. *)
Variable ParseForm : Request -> gmap string (list string) * error.
Context `{ResponseWriter W}.

(** [func handleRoot(w http.ResponseWriter, r *http.Request)] *)
Definition handleRoot (r : Request) : Go (W * list string) unit :=
  let '(form, err) := ParseForm r in
  match err with
  | Some e => log_Printf ("failed to parse form; " ++ Error e)
  | None =>
      let p := Values_Get form "prob" in
      if String.eqb p "ex1" then
        (err <- on_writer
                  (SendProblem 403 (problemExample1_value example1)) ;;
         match err with
         | Some e => log_Printf ("failed to send problem; " ++ Error e)
         | None => go_ret tt
         end)%go
      else if String.eqb p "ex2" then
        (err <- on_writer
                  (SendProblem 400 (problemExample2_value example2)) ;;
         match err with
         | Some e => log_Printf ("failed to send problem; " ++ Error e)
         | None => go_ret tt
         end)%go
      else
        (err <- on_writer (sendResponse 200 hello_value) ;;
         match err with
         | Some e => log_Printf ("failed to send response; " ++ Error e)
         | None => go_ret tt
         end)%go
  end.
End handleRoot.

(** ** Bytes of a JSON text

    A byte that is safe inside HTML and does not break a line: no control
    character, and none of the three characters the encoder escapes for
    HTML. *)
Definition html_safe_byte (c : ascii) : bool :=
  (32 <=? byte_val c)
  && negb (existsb (Ascii.eqb c) ["<"%char; ">"%char; "&"%char]).

Fixpoint string_forallb (f : ascii -> bool) (s : string) : bool :=
  match s with
  | EmptyString => true
  | String c s' => f c && string_forallb f s'
  end.

(** The first [n] bytes of [s], as far as it has them, are not ASCII. *)
Fixpoint high_prefix (n : nat) (s : string) : bool :=
  match n, s with
  | O, _ => true
  | S _, EmptyString => true
  | S n', String c s' => (128 <=? byte_val c) && high_prefix n' s'
  end.

(** The bytes the loop of [appendString] still has to copy are not
    ASCII. *)
Definition tail_is_high (pending : tail_bytes) (src : string) : bool :=
  match pending with
  | copy_tail n => high_prefix n src
  | skip_tail _ => true
  end.

(** * Properties of [webapputil] *)

(** One run of the handler the middleware returns: the generator first; when
    it returns, the wrapped handler on the request with the new context;
    when it panics, nothing more. *)
Lemma RequestIDMiddleware_run {S W} (next : Handler S W)
    (fn : RequestIDFunc S) (w : W) (r : Request) (s : S) :
  RequestIDMiddleware next fn w r s =
  match fn r s with
  | (Return id, s1) => next w (with_request_id r id) s1
  | (Panic msg, s1) => (Panic msg, s1)
  end.
Proof.
  unfold RequestIDMiddleware, HandlerFunc, ServeHTTP, go_bind.
  destruct (fn r s) as [[id | msg] s1]; reflexivity.
Qed.

Section MiddlewareFacts.
Context {S W : Type}.
Implicit Types (next : Handler S W) (fn : RequestIDFunc S).
Implicit Types (w : W) (r : Request) (s : S) (log : list (Call W)).

(** The same run with both arguments logged. *)
Lemma RequestIDMiddleware_logged_run next fn w r s log :
  RequestIDMiddleware (logged_handler next) (logged_generator W fn)
    w r (s, log) =
  match fn r s with
  | (Return id, s1) =>
      let '(o, s2) := next w (with_request_id r id) s1 in
      (o, (s2, (log ++ [CallGenerator r;
                        CallNext w (with_request_id r id)])%list))
  | (Panic msg, s1) => (Panic msg, (s1, (log ++ [CallGenerator r])%list))
  end.
Proof.
  rewrite RequestIDMiddleware_run.
  unfold logged_generator, logged_handler, logged.
  destruct (fn r s) as [[id | msg] s1]; [| reflexivity].
  destruct (next w (with_request_id r id) s1) as [o s2].
  by rewrite <- app_assoc.
Qed.

Lemma RequestIDMiddleware_logged_calls next fn w r s log id s1 :
  fn r s = (Return id, s1) ->
  snd (snd (RequestIDMiddleware (logged_handler next)
              (logged_generator W fn) w r (s, log))) =
  (log ++ [CallGenerator r; CallNext w (with_request_id r id)])%list.
Proof.
  intros Hfn. rewrite RequestIDMiddleware_logged_run, Hfn.
  by destruct (next w (with_request_id r id) s1).
Qed.
End MiddlewareFacts.

Lemma RequestID_with_request_id r id :
  RequestID (with_request_id r id) = Return id.
Proof.
  reflexivity.
Qed.

Lemma Value_without_request_id c :
  has_request_id c = false -> Value c requestIDKey = nil_any.
Proof.
  induction c as [| | parent IH k v | parent IH]; simpl; try done.
  intros [Hk Hp]%orb_false_iff.
  apply bool_decide_eq_false in Hk.
  rewrite decide_False by done. auto.
Qed.

Lemma has_request_id_with_request_id r id :
  has_request_id (Request_Context (with_request_id r id)) = true.
Proof.
  reflexivity.
Qed.

Lemma Value_with_request_id_other r id key :
  key <> requestIDKey ->
  Value (Request_Context (with_request_id r id)) key =
  Value (Request_Context r) key.
Proof.
  intros Hkey. unfold with_request_id. simpl.
  rewrite decide_False; [reflexivity | congruence].
Qed.

(** C1: when the generator [fn] returns [id] for a request, the request the
    handler returned by [RequestIDMiddleware next fn] passes to the wrapped
    handler [next] is one on which [RequestID] returns exactly [id]. *)
Theorem RequestID_in_wrapped_handler_is_generated
    {S W} (next : Handler S W) (fn : RequestIDFunc S)
    (w : W) (r : Request) (s s1 : S) (id : string) :
  fn r s = (Return id, s1) ->
  exists r',
    snd (snd (RequestIDMiddleware (logged_handler next)
                (logged_generator W fn) w r (s, []))) =
      [CallGenerator r; CallNext w r']
    /\ RequestID r' = Return id.
Proof.
  intros Hfn. exists (with_request_id r id). split.
  - by rewrite (RequestIDMiddleware_logged_calls _ _ _ _ _ _ id s1).
  - apply RequestID_with_request_id.
Qed.

(** The scenario with the fixed literal abc-123. *)
Lemma RequestID_in_wrapped_handler_is_generated_witness :
  fixed_id "abc-123" sample_request tt = (Return "abc-123", tt)
  /\ exists r',
       snd (snd (RequestIDMiddleware (logged_handler noop_handler)
                   (logged_generator nat (fixed_id "abc-123"))
                   0%nat sample_request (tt, []))) =
         [CallGenerator sample_request; CallNext 0%nat r']
       /\ RequestID r' = Return "abc-123".
Proof.
  split; [reflexivity |].
  apply (RequestID_in_wrapped_handler_is_generated
           noop_handler (fixed_id "abc-123") 0%nat sample_request tt tt
           "abc-123").
  reflexivity.
Defined.

(** C2: on a request whose context holds no value under [requestIDKey]
    (no [RequestIDMiddleware] ran for it), [RequestID] panics, always with
    the same type-assertion failure, and returns no string at all. *)
Theorem RequestID_panics_without_middleware (r : Request) :
  has_request_id (Request_Context r) = false ->
  RequestID r = Panic "interface conversion: interface {} is nil, not string"
  /\ forall id, RequestID r <> Return id.
Proof.
  intros Hno. unfold RequestID.
  rewrite (Value_without_request_id _ Hno). simpl.
  split; [reflexivity | discriminate].
Qed.

Lemma RequestID_panics_without_middleware_witness :
  has_request_id (Request_Context sample_request_with_user) = false
  /\ (RequestID sample_request_with_user =
        Panic "interface conversion: interface {} is nil, not string"
      /\ forall id, RequestID sample_request_with_user <> Return id).
Proof.
  split; [reflexivity |].
  apply (RequestID_panics_without_middleware sample_request_with_user).
  reflexivity.
Defined.

(** C8: in one run of the handler returned by [RequestIDMiddleware], the
    calls it makes are: the generator, once, on the request; then, when the
    generator returned, the wrapped handler, once.  The generator is never
    called a second time and never after the wrapped handler. *)
Theorem generator_called_once_before_next
    {S W} (next : Handler S W) (fn : RequestIDFunc S)
    (w : W) (r : Request) (s : S) (log : list (Call W)) :
  let run := RequestIDMiddleware (logged_handler next)
               (logged_generator W fn) w r (s, log) in
  let calls := drop (length log) (snd (snd run)) in
  length (List.filter is_generator_call calls) = 1%nat
  /\ ((exists id, fst (fn r s) = Return id
         /\ calls = [CallGenerator r; CallNext w (with_request_id r id)])
      \/ (returns (fst (fn r s)) = false /\ calls = [CallGenerator r])).
Proof.
  cbv zeta. rewrite RequestIDMiddleware_logged_run.
  destruct (fn r s) as [[id | msg] s1]; simpl.
  - destruct (next w (with_request_id r id) s1) as [o s2]. simpl.
    rewrite drop_app_length. split; [reflexivity |]. left. by exists id.
  - rewrite drop_app_length. split; [reflexivity |]. by right.
Qed.

(** C9: the request passed to the wrapped handler has the method, URL,
    protocol, headers, body, host and addresses of the inbound request, it
    comes with the same response writer, and its context answers every key
    other than [requestIDKey] as the inbound request's context does. *)
Theorem middleware_changes_only_the_request_id
    {S W} (next : Handler S W) (fn : RequestIDFunc S)
    (w : W) (r : Request) (s s1 : S) (id : string) :
  fn r s = (Return id, s1) ->
  exists r',
    snd (snd (RequestIDMiddleware (logged_handler next)
                (logged_generator W fn) w r (s, []))) =
      [CallGenerator r; CallNext w r']
    /\ Method r' = Method r /\ URL r' = URL r /\ Proto r' = Proto r
    /\ ReqHeader r' = ReqHeader r /\ Body r' = Body r /\ Host r' = Host r
    /\ RemoteAddr r' = RemoteAddr r /\ RequestURI r' = RequestURI r
    /\ forall key, key <> requestIDKey ->
         Value (Request_Context r') key = Value (Request_Context r) key.
Proof.
  intros Hfn. exists (with_request_id r id). split.
  - by rewrite (RequestIDMiddleware_logged_calls _ _ _ _ _ _ id s1).
  - repeat (split; [reflexivity |]).
    intros key Hkey. by apply Value_with_request_id_other.
Qed.

Lemma middleware_changes_only_the_request_id_witness :
  counter_id sample_request_with_user 7 = (Return "req-7", 8)
  /\ exists r',
       snd (snd (RequestIDMiddleware (logged_handler noop_handler)
                   (logged_generator nat counter_id)
                   0%nat sample_request_with_user (7, []))) =
         [CallGenerator sample_request_with_user; CallNext 0%nat r']
       /\ Method r' = Method sample_request_with_user
       /\ URL r' = URL sample_request_with_user
       /\ Proto r' = Proto sample_request_with_user
       /\ ReqHeader r' = ReqHeader sample_request_with_user
       /\ Body r' = Body sample_request_with_user
       /\ Host r' = Host sample_request_with_user
       /\ RemoteAddr r' = RemoteAddr sample_request_with_user
       /\ RequestURI r' = RequestURI sample_request_with_user
       /\ forall key, key <> requestIDKey ->
            Value (Request_Context r') key =
            Value (Request_Context sample_request_with_user) key.
Proof.
  split; [reflexivity |].
  apply (middleware_changes_only_the_request_id
           noop_handler counter_id 0%nat sample_request_with_user 7 8
           "req-7").
  reflexivity.
Defined.

(** C10: when the generator returns the empty string, the middleware still
    stores it under [requestIDKey], and [RequestID] on the request the
    wrapped handler receives returns the empty string; it does not
    panic. *)
Theorem empty_request_id_is_stored_and_read
    {S W} (next : Handler S W) (fn : RequestIDFunc S)
    (w : W) (r : Request) (s s1 : S) :
  fn r s = (Return "", s1) ->
  exists r',
    snd (snd (RequestIDMiddleware (logged_handler next)
                (logged_generator W fn) w r (s, []))) =
      [CallGenerator r; CallNext w r']
    /\ Value (Request_Context r') requestIDKey = string_any ""
    /\ has_request_id (Request_Context r') = true
    /\ RequestID r' = Return "".
Proof.
  intros Hfn. exists (with_request_id r ""). split.
  - by rewrite (RequestIDMiddleware_logged_calls _ _ _ _ _ _ "" s1).
  - repeat split.
Qed.

Lemma empty_request_id_is_stored_and_read_witness :
  fixed_id "" sample_request tt = (Return "", tt)
  /\ exists r',
       snd (snd (RequestIDMiddleware (logged_handler noop_handler)
                   (logged_generator nat (fixed_id ""))
                   0%nat sample_request (tt, []))) =
         [CallGenerator sample_request; CallNext 0%nat r']
       /\ Value (Request_Context r') requestIDKey = string_any ""
       /\ has_request_id (Request_Context r') = true
       /\ RequestID r' = Return "".
Proof.
  split; [reflexivity |].
  apply (empty_request_id_is_stored_and_read
           noop_handler (fixed_id "") 0%nat sample_request tt tt).
  reflexivity.
Defined.

(** The scenario observed from inside the handler: the generator returns
    the fixed literal, the wrapped handler calls [RequestID] and gets
    it. *)
Example reading_handler_reads_fixed_id :
  RequestIDMiddleware reading_handler (fixed_id "abc-123")
    0%nat sample_request [] = (Return tt, [Return "abc-123"]).
Proof. reflexivity. Qed.

(** * Properties of [problem] *)

Lemma string_app_assoc (a b c : string) : (a ++ b) ++ c = a ++ (b ++ c).
Proof.
  induction a as [| x a IH]; [reflexivity |].
  change (String x ((a ++ b) ++ c) = String x (a ++ b ++ c)).
  by f_equal.
Qed.

Lemma CanonicalMIMEHeaderKey_Content_Type :
  CanonicalMIMEHeaderKey "Content-Type" = "Content-Type".
Proof. reflexivity. Qed.

Lemma problem_header_lookup (h : Header) :
  problem_header h !! "Content-Type" = Some [contentType].
Proof.
  unfold problem_header, Header_Set.
  rewrite CanonicalMIMEHeaderKey_Content_Type. apply lookup_insert_eq.
Qed.

Lemma problem_header_lookup_other (h : Header) (key : string) :
  key <> "Content-Type" -> problem_header h !! key = h !! key.
Proof.
  intros Hkey. unfold problem_header, Header_Set.
  rewrite CanonicalMIMEHeaderKey_Content_Type.
  by rewrite lookup_insert_ne.
Qed.

(** One run of [SendProblem] on any writer, call by call. *)
Lemma SendProblem_run `{ResponseWriter W} (statusCode : Z)
    (problem : GoValue) (w : W) :
  SendProblem statusCode problem w =
  match WriteHeader statusCode
          (Header_store (problem_header (Header_of w)) w) with
  | (Panic msg, w2) => (Panic msg, w2)
  | (Return _, w2) =>
      match marshal problem with
      | Err e => (Return (Some e), w2)
      | Ok e =>
          match Write (e ++ String newline "") w2 with
          | (Return res, w3) => (Return (snd res), w3)
          | (Panic msg, w3) => (Panic msg, w3)
          end
      end
  end.
Proof.
  unfold SendProblem, ResponseWriter_Header_Set, Encoder_Encode,
    go_bind, go_gets, go_modify, go_ret, problem_header.
  destruct (WriteHeader statusCode _) as [[[] | msg] w2]; [| reflexivity].
  destruct (marshal problem) as [e | e]; [| reflexivity].
  destruct (Write _ w2) as [[res | msg] w3]; reflexivity.
Qed.

(** The calls [SendProblem] makes on a writer that records them. *)
Lemma SendProblem_recorded_calls `{ResponseWriter W} (statusCode : Z)
    (problem : GoValue) (w : W) (log : list WriterCall) :
  let h := problem_header (Header_of w) in
  snd (snd (SendProblem (W := Recording W) statusCode problem (w, log))) =
  (log ++ CallHeaderStore h :: CallWriteHeader statusCode ::
     (if returns (fst (WriteHeader statusCode (Header_store h w)))
      then match marshal problem with
           | Ok e => [CallWrite (e ++ String newline "")]
           | Err _ => []
           end
      else []))%list.
Proof.
  cbv zeta. rewrite SendProblem_run. simpl. unfold recording.
  destruct (WriteHeader statusCode _) as [[[] | msg] w2]; simpl.
  - destruct (marshal problem) as [e | e]; simpl.
    + destruct (Write _ w2) as [[res | msg] w3]; simpl;
        by rewrite <- !List.app_assoc.
    + by rewrite <- !List.app_assoc.
  - by rewrite <- !List.app_assoc.
Qed.

(** On the recorder the header map after [SendProblem] is the stored one:
    neither [WriteHeader] nor the write of the body changes it again. *)
Lemma SendProblem_recorder_HeaderMap (detect : string -> string)
    (statusCode : Z) (problem : GoValue) (rw : ResponseRecorder) :
  HeaderMap (snd (SendProblem (H := Recorder_ResponseWriter detect)
                    statusCode problem rw)) =
  problem_header (HeaderMap rw).
Proof.
  rewrite SendProblem_run. simpl.
  unfold Recorder_WriteHeader, set_HeaderMap. simpl.
  destruct (wroteHeader rw) eqn:Hwrote;
    [| destruct (checkWriteHeaderCode statusCode) as [[] | msg];
       [| reflexivity]];
    (destruct (marshal problem) as [e | e]; [| reflexivity]);
    unfold Recorder_Write, Recorder_writeHeader, go_bind, go_modify, go_ret,
      go_gets;
    simpl; rewrite ?Hwrote; simpl;
    by destruct (bodyAllowedForStatus _).
Qed.

(** C3: on any response writer, the calls [SendProblem] makes are, in this
    order: one store of the Content-Type header (the problem media type,
    distinct from plain JSON), then [WriteHeader] with the given status code,
    and only then, when the value has an encoding, one [Write] of the
    encoded body.  The header is stored exactly once, and no body byte is
    written before the status. *)
Theorem SendProblem_effects_in_order `{ResponseWriter W}
    (statusCode : Z) (problem : GoValue) (w : W) :
  let h := problem_header (Header_of w) in
  let calls :=
    snd (snd (SendProblem (W := Recording W) statusCode problem (w, []))) in
  h !! "Content-Type" = Some [contentType]
  /\ contentType <> "application/json"
  /\ length (List.filter is_header_store calls) = 1%nat
  /\ calls =
       CallHeaderStore h :: CallWriteHeader statusCode ::
         (if returns (fst (WriteHeader statusCode (Header_store h w)))
          then match marshal problem with
               | Ok e => [CallWrite (e ++ String newline "")]
               | Err _ => []
               end
          else []).
Proof.
  cbv zeta. rewrite SendProblem_recorded_calls. simpl.
  split; [apply problem_header_lookup |].
  split; [discriminate |].
  split; [| reflexivity].
  destruct (returns _); [destruct (marshal problem) |]; reflexivity.
Qed.

(** C5, as it is stated, does not hold: [SendProblem] can panic.  With the
    status code 0 the recorder's [WriteHeader], as the server's, panics,
    and [SendProblem] does not return. *)
Lemma SendProblem_can_panic :
  ~ exists err,
      fst (SendProblem (H := Recorder_ResponseWriter sample_DetectContentType)
             0 (Problem_value sample_problem) NewRecorder) = Return err.
Proof. intros [err Hreturn]. vm_compute in Hreturn. discriminate Hreturn. Qed.

(** C5, amended: on any writer and for any status code and value,
    [SendProblem] either returns or passes on a panic that one of the
    writer's methods raised ([WriteHeader], or [Write] of the encoded
    body): it has no panic of its own.  When it returns, the result is an error exactly when the
    value has no JSON encoding or the write of the body failed, and that
    error is the encoder's or the writer's own error value, handed to the
    caller.  [SendProblem] runs on the writer alone: it has no log to write
    to. *)
Theorem SendProblem_returns_error_iff `{ResponseWriter W}
    (statusCode : Z) (problem : GoValue) (w : W) :
  let w1 := Header_store (problem_header (Header_of w)) w in
  match SendProblem statusCode problem w with
  | (Panic msg, w') =>
      WriteHeader statusCode w1 = (Panic msg, w')
      \/ (exists b w2, marshal problem = Ok b
            /\ WriteHeader statusCode w1 = (Return tt, w2)
            /\ Write (b ++ String newline "") w2 = (Panic msg, w'))
  | (Return err, w') =>
      exists w2, WriteHeader statusCode w1 = (Return tt, w2)
      /\ (is_Some err <->
          (exists e, marshal problem = Err e)
          \/ (exists b n e, marshal problem = Ok b
                /\ Write (b ++ String newline "") w2
                   = (Return (n, Some e), w')))
      /\ (forall e, marshal problem = Err e -> err = Some e /\ w' = w2)
      /\ (forall b, marshal problem = Ok b ->
            exists n, Write (b ++ String newline "") w2
                      = (Return (n, err), w'))
  end.
Proof.
  cbv zeta. rewrite SendProblem_run.
  destruct (WriteHeader statusCode _) as [[[] | msg] w2]; [| by left].
  destruct (marshal problem) as [b | e].
  - destruct (Write (b ++ String newline "") w2)
      as [[[n e] | msg] w3] eqn:Hw.
    + exists w2. simpl.
      split; [reflexivity |]. split; [split |]; [| | split].
      * intros [e' ->]. right. by exists b, n, e'.
      * intros [[e' He'] | (b' & n' & e' & Hb & Hw')]; [discriminate |].
        injection Hb as <-. rewrite Hw in Hw'. injection Hw' as _ ->.
        by eexists.
      * discriminate.
      * intros b' Hb. injection Hb as <-. by exists n.
    + right. by exists b, w2.
  - exists w2.
    split; [reflexivity |]. split; [split |]; [| | split].
    + intros _. left. by exists e.
    + intros _. by eexists.
    + intros e' He'. by injection He' as <-.
    + discriminate.
Qed.

(** On a writer whose connection is gone the write of the body fails, and
    the caller gets that error. *)
Example SendProblem_write_error :
  SendProblem 400 (Problem_value sample_problem) broken_connection
  = (Return (Some (errorString "write: broken pipe")),
     {| brokenHeader := problem_header ∅; brokenStatus := Some 400 |}).
Proof. reflexivity. Qed.

(** The three ways [SendProblem] ends on writers that do not panic:
    silently, with the encoder's error, with the writer's error. *)
Example SendProblem_succeeds_silently :
  fst (SendProblem (H := Recorder_ResponseWriter sample_DetectContentType)
         400 (Problem_value sample_problem) NewRecorder) = Return None.
Proof. reflexivity. Qed.

Example SendProblem_unsupported_value :
  fst (SendProblem (H := Recorder_ResponseWriter sample_DetectContentType)
         500 (GoSlice [GoInt 1; GoUnsupported "chan int"]) NewRecorder)
  = Return (Some (UnsupportedTypeError "chan int")).
Proof. reflexivity. Qed.

(** [SendProblem] does not check the status code; the recorder, as the
    server's writer, panics on one that has not three digits. *)
Example SendProblem_invalid_status_code :
  fst (SendProblem (H := Recorder_ResponseWriter sample_DetectContentType)
         0 (Problem_value sample_problem) NewRecorder)
  = Panic "invalid WriteHeader code 0".
Proof. reflexivity. Qed.

(** C6: whatever headers the response has, [SendProblem] stores a header
    map in which Content-Type is the one-element list holding the literal
    application/problem+json, and in which every other key is as before:
    the first call on any writer is that store, and on the recorder the
    header map holds that one value afterwards, whatever list it held
    before. *)
Theorem SendProblem_replaces_content_type :
  (forall `{ResponseWriter W} (statusCode : Z) (problem : GoValue) (w : W),
      exists h rest,
        snd (snd (SendProblem (W := Recording W) statusCode problem
                    (w, []))) = CallHeaderStore h :: rest
        /\ h !! "Content-Type" = Some ["application/problem+json"]
        /\ forall key,
             key <> "Content-Type" -> h !! key = Header_of w !! key)
  /\ (forall (detect : string -> string) (statusCode : Z)
        (problem : GoValue) (rw : ResponseRecorder),
        HeaderMap (snd (SendProblem (H := Recorder_ResponseWriter detect)
                          statusCode problem rw)) !! "Content-Type"
        = Some ["application/problem+json"]).
Proof.
  split.
  - intros W H statusCode problem w.
    eexists _, _. split; [| split].
    + by rewrite SendProblem_recorded_calls.
    + apply problem_header_lookup.
    + intros key Hkey. by apply problem_header_lookup_other.
  - intros detect statusCode problem rw.
    rewrite SendProblem_recorder_HeaderMap. apply problem_header_lookup.
Qed.

(** A recorder on which two other content types were set: afterwards the
    problem media type is the only one. *)
Example SendProblem_replaces_two_content_types :
  HeaderMap recorder_with_json_type !! "Content-Type"
    = Some ["application/json"; "text/html"]
  /\ (let rw := snd (SendProblem
                       (H := Recorder_ResponseWriter sample_DetectContentType)
                       403 (Problem_value sample_problem)
                       recorder_with_json_type) in
      HeaderMap rw !! "Content-Type" = Some ["application/problem+json"]
      /\ (snapHeader rw ≫= (fun h => h !! "Content-Type"))
         = Some ["application/problem+json"]).
Proof. vm_compute. repeat split. Qed.

(** C7, as the scenario states it, does not hold: the body is not exactly
    the JSON text, because the encoder ends it with a newline. *)
Lemma SendProblem_scenario_body_is_not_only_the_json :
  ~ (let rw := snd (SendProblem
                      (H := Recorder_ResponseWriter sample_DetectContentType)
                      400 (Problem_value sample_problem) NewRecorder) in
     Code rw = 400
     /\ RecBody rw =
        json_text
          "{'type':'https://example.com/x','title':'Bad','status':400}").
Proof. vm_compute. intros [_ Hbody]. discriminate Hbody. Qed.

(** C7, amended: sending the problem value with type, title and status 400
    with status code 400 returns no error, writes status 400 under the
    problem media type, and the body is the JSON text of the scenario
    followed by one newline. *)
Theorem SendProblem_scenario (detect : string -> string) :
  let run := SendProblem (H := Recorder_ResponseWriter detect)
               400 (Problem_value sample_problem) NewRecorder in
  fst run = Return None
  /\ Code (snd run) = 400
  /\ (snapHeader (snd run) ≫= (fun h => h !! "Content-Type"))
     = Some [contentType]
  /\ RecBody (snd run) =
     json_text "{'type':'https://example.com/x','title':'Bad','status':400}"
       ++ String newline "".
Proof. vm_compute. repeat split. Qed.

(** ** The JSON object of a struct *)

Lemma concat_object_tail (m : string) (ms : list string) :
  String.concat "," (m :: ms) ++ "}" = m ++ object_tail ms.
Proof.
  revert m. induction ms as [| m' ms IH]; intros m; [reflexivity |].
  change (String.concat "," (m :: m' :: ms))
    with (m ++ "," ++ String.concat "," (m' :: ms)).
  rewrite !string_app_assoc, IH. reflexivity.
Qed.

Lemma object_text_cons (m : string * string) (ms : list (string * string)) :
  object_text (m :: ms) =
  "{" ++ appendString (fst m) ++ ":" ++ snd m
    ++ object_tail (map member_text ms).
Proof.
  unfold object_text. rewrite map_cons, concat_object_tail.
  unfold member_text at 1. by rewrite !string_app_assoc.
Qed.

Section structEncoder.
Variable encoder : GoValue -> result string.
Variable txt : GoValue -> string.

(** After the first member the loop writes the tail of the object. *)
Lemma structEncoder_fields_tail (fs : list (structField * GoValue)) :
  (forall f fv, In (f, fv) fs -> encoder fv = Ok (txt fv)) ->
  structEncoder_fields encoder fs "," =
  Ok (object_tail (map member_text (struct_members txt fs))).
Proof.
  induction fs as [| [f fv] fs IH]; intros Henc; [reflexivity |].
  assert (forall f' fv', In (f', fv') fs -> encoder fv' = Ok (txt fv'))
    as Hrest by (intros f' fv' Hin; apply (Henc f'); by right).
  unfold struct_members, emitted_fields. simpl.
  destruct (omitEmpty f && isEmptyValue fv); simpl.
  - by apply IH.
  - rewrite (Henc f fv) by (by left). rewrite (IH Hrest).
    unfold member_text at 2. simpl.
    by rewrite !string_app_assoc.
Qed.

(** The struct encoder writes the JSON object whose members are the
    emitted fields, in the order of the declaration. *)
Lemma structEncoder_fields_object (fs : list (structField * GoValue)) :
  (forall f fv, In (f, fv) fs -> encoder fv = Ok (txt fv)) ->
  structEncoder_fields encoder fs "{" =
  Ok (object_text (struct_members txt fs)).
Proof.
  induction fs as [| [f fv] fs IH]; intros Henc; [reflexivity |].
  assert (forall f' fv', In (f', fv') fs -> encoder fv' = Ok (txt fv'))
    as Hrest by (intros f' fv' Hin; apply (Henc f'); by right).
  unfold struct_members, emitted_fields. simpl.
  destruct (omitEmpty f && isEmptyValue fv); simpl.
  - by apply IH.
  - rewrite (Henc f fv) by (by left).
    rewrite (structEncoder_fields_tail fs Hrest).
    by rewrite object_text_cons.
Qed.
End structEncoder.

(** In any struct, a field tagged omitempty that holds the zero value of
    its type is not among the emitted ones. *)
Lemma omitempty_zero_field_not_emitted
    (fs : list (structField * GoValue)) (f : structField) (fv : GoValue) :
  omitEmpty f = true -> isEmptyValue fv = true ->
  ~ In (f, fv) (emitted_fields fs).
Proof.
  intros Homit Hzero [_ Hkeep]%filter_In.
  by rewrite Homit, Hzero in Hkeep.
Qed.

Lemma Problem_struct_members (p : Problem) :
  struct_members field_text (Problem_fields p) = Problem_members p.
Proof.
  destruct p as [ty ti st de ins].
  unfold struct_members, emitted_fields, Problem_fields, Problem_members.
  simpl.
  destruct ty, ti, de, ins; destruct (st =? 0); reflexivity.
Qed.

Lemma Problem_fields_encode (p : Problem) (f : structField) (fv : GoValue) :
  In (f, fv) (Problem_fields p) -> reflectValue fv = Ok (field_text fv).
Proof.
  unfold Problem_fields. simpl.
  intros [H | [H | [H | [H | [H | []]]]]]; by injection H as _ <-.
Qed.

Lemma marshal_Problem (p : Problem) :
  marshal (Problem_value p) = Ok (object_text (Problem_members p)).
Proof.
  change (marshal (Problem_value p))
    with (structEncoder_fields reflectValue (Problem_fields p) "{").
  rewrite (structEncoder_fields_object reflectValue field_text)
    by apply Problem_fields_encode.
  by rewrite Problem_struct_members.
Qed.

(** C4: the JSON text of a [Problem] is the object whose members are
    exactly the fields that are not the zero value of their type, in the
    order type, title, status, detail, instance: each of the five keys is
    a key of the object if and only if its field is not empty (not zero,
    for the status).  A zero-valued field thus leaves no key at all. *)
Theorem Problem_zero_fields_are_omitted (p : Problem) :
  marshal (Problem_value p) = Ok (object_text (Problem_members p))
  /\ (In "type" (map fst (Problem_members p)) <-> Type_ p <> "")
  /\ (In "title" (map fst (Problem_members p)) <-> Title p <> "")
  /\ (In "status" (map fst (Problem_members p)) <-> Status p <> 0)
  /\ (In "detail" (map fst (Problem_members p)) <-> Detail p <> "")
  /\ (In "instance" (map fst (Problem_members p)) <-> Instance_ p <> "").
Proof.
  split.
  - apply marshal_Problem.
  - destruct p as [ty ti st de ins]. unfold Problem_members. simpl.
    destruct (Z.eqb_spec st 0) as [Hst | Hst];
      destruct ty, ti, de, ins; simpl;
      repeat split; intros; try discriminate; try done;
      try (intuition discriminate); try lia.
Qed.

(** A value with only the title set serializes to an object with the title
    key alone. *)
Example only_title_has_only_the_title_key (a : ascii) (t : string) :
  marshal (Problem_value (only_title (String a t))) =
  Ok (object_text [("title", appendString (String a t))]).
Proof.
  by rewrite marshal_Problem.
Qed.

Example only_title_Bad :
  marshal (Problem_value (only_title "Bad")) =
  Ok (json_text "{'title':'Bad'}").
Proof. reflexivity. Qed.

(** * Further properties of [webapputil] *)

(** X1: the handler the middleware returns has no panic of its own: the calls
    of [context.WithValue] and [WithContext] in it always return, also for
    a request that has no context yet.  A panic out of it is the
    generator's or the wrapped handler's, and it returns when both do, with
    the world as the wrapped handler left it. *)
Theorem RequestIDMiddleware_has_no_panic_of_its_own
    {S W} (next : Handler S W) (fn : RequestIDFunc S)
    (w : W) (r : Request) (s : S) :
  match RequestIDMiddleware next fn w r s with
  | (Panic msg, s') =>
      fn r s = (Panic msg, s')
      \/ exists id s1 r',
           fn r s = (Return id, s1) /\ RequestID r' = Return id
           /\ next w r' s1 = (Panic msg, s')
  | (Return _, s') =>
      exists id s1 r',
        fn r s = (Return id, s1) /\ RequestID r' = Return id
        /\ next w r' s1 = (Return tt, s')
  end.
Proof.
  rewrite RequestIDMiddleware_run.
  destruct (fn r s) as [[id | msg] s1]; [| by left].
  destruct (next w (with_request_id r id) s1) as [[[] | msg] s2] eqn:Hnext.
  - by exists id, s1, (with_request_id r id).
  - right. by exists id, s1, (with_request_id r id).
Qed.

(** X2: two middlewares around one handler: the outer generator runs first, on
    the inbound request; the inner one second, on the request that already
    carries the outer identifier; and the handler reads the inner
    identifier: the nearest value under [requestIDKey] hides the other. *)
Theorem nested_middleware_inner_id_wins
    {S W} (next : Handler S W) (inner outer : RequestIDFunc S)
    (w : W) (r : Request) (s s1 s2 : S) (id_outer id_inner : string) :
  outer r s = (Return id_outer, s1) ->
  inner (with_request_id r id_outer) s1 = (Return id_inner, s2) ->
  exists r',
    snd (snd (RequestIDMiddleware
                (RequestIDMiddleware (logged_handler next)
                   (logged_generator W inner))
                (logged_generator W outer) w r (s, []))) =
      [CallGenerator r; CallGenerator (with_request_id r id_outer);
       CallNext w r']
    /\ RequestID r' = Return id_inner.
Proof.
  intros Houter Hinner.
  exists (with_request_id (with_request_id r id_outer) id_inner).
  split; [| reflexivity].
  rewrite RequestIDMiddleware_run.
  change (logged_generator W outer r (s, []))
    with (let '(o, s') := outer r s in (o, (s', [@CallGenerator W r]))).
  rewrite Houter.
  by rewrite (RequestIDMiddleware_logged_calls _ _ _ _ _ _ id_inner s2).
Qed.

Lemma nested_middleware_inner_id_wins_witness :
  counter_id sample_request 7 = (Return "req-7", 8)
  /\ fixed_id "inner" (with_request_id sample_request "req-7") 8
     = (Return "inner", 8)
  /\ exists r',
       snd (snd (RequestIDMiddleware
                   (RequestIDMiddleware (logged_handler noop_handler)
                      (logged_generator nat (fixed_id "inner")))
                   (logged_generator nat counter_id)
                   0%nat sample_request (7, []))) =
         [CallGenerator sample_request;
          CallGenerator (with_request_id sample_request "req-7");
          CallNext 0%nat r']
       /\ RequestID r' = Return "inner".
Proof.
  split; [reflexivity |]. split; [reflexivity |].
  apply (nested_middleware_inner_id_wins noop_handler (fixed_id "inner")
           counter_id 0%nat sample_request 7 8 8 "req-7" "inner");
    reflexivity.
Defined.

(** Steps with foreign keys leave the answer under [requestIDKey] as it
    was. *)
Lemma derive_foreign (c c' : Context) (ops : list ctx_op) :
  derive c ops = Return c' ->
  forallb foreign_op ops = true ->
  Value c' requestIDKey = Value c requestIDKey
  /\ has_request_id c' = has_request_id c
  /\ (request_ids_are_strings c = true -> request_ids_are_strings c' = true).
Proof.
  revert c. induction ops as [| [key val |] ops IH]; intros c Hderive Hops.
  - injection Hderive as <-. by repeat split.
  - simpl in Hops. apply andb_true_iff in Hops as [Hkey Hops].
    apply negb_true_iff, bool_decide_eq_false in Hkey.
    simpl in Hderive. destruct (decide (key = nil_any)); [discriminate |].
    destruct (IH _ Hderive Hops) as (HV & Hhas & Hwf). simpl in HV, Hhas.
    rewrite decide_False in HV by done.
    rewrite bool_decide_eq_false_2 in Hhas by done.
    split; [done |]. split; [done |].
    intros Hc. apply Hwf. simpl.
    destruct (decide (key = requestIDKey)); [done | exact Hc].
  - simpl in Hops, Hderive.
    destruct (IH _ Hderive Hops) as (HV & Hhas & Hwf). by repeat split.
Qed.

(** X3: whatever code downstream adds to the context of a request under keys
    of its own, and however often it wraps it for cancellation, [RequestID]
    answers as before: with the same identifier, or with the same panic
    where the middleware never ran. *)
Theorem RequestID_survives_foreign_context_steps
    (r : Request) (ops : list ctx_op) (c' : Context) :
  derive (Request_Context r) ops = Return c' ->
  forallb foreign_op ops = true ->
  RequestID (set_ctx r c') = RequestID r.
Proof.
  intros Hderive Hops. unfold RequestID.
  change (Request_Context (set_ctx r c')) with c'.
  by destruct (derive_foreign _ _ _ Hderive Hops) as (-> & _).
Qed.

Lemma RequestID_survives_foreign_context_steps_witness :
  derive (Request_Context (with_request_id sample_request "abc-123"))
    [with_value (other_any "auth.userKey" "{}") (string_any "alice");
     with_cancel; with_value (string_any "request-id") (int_any 5)]
  = Return
      (valueCtx
         (cancelCtx
            (valueCtx (Request_Context
                         (with_request_id sample_request "abc-123"))
               (other_any "auth.userKey" "{}") (string_any "alice")))
         (string_any "request-id") (int_any 5))
  /\ forallb foreign_op
       [with_value (other_any "auth.userKey" "{}") (string_any "alice");
        with_cancel; with_value (string_any "request-id") (int_any 5)]
     = true
  /\ RequestID
       (set_ctx (with_request_id sample_request "abc-123")
          (valueCtx
             (cancelCtx
                (valueCtx (Request_Context
                             (with_request_id sample_request "abc-123"))
                   (other_any "auth.userKey" "{}") (string_any "alice")))
             (string_any "request-id") (int_any 5)))
     = RequestID (with_request_id sample_request "abc-123").
Proof.
  split; [reflexivity |]. split; [reflexivity |].
  apply (RequestID_survives_foreign_context_steps
           (with_request_id sample_request "abc-123")
           [with_value (other_any "auth.userKey" "{}") (string_any "alice");
            with_cancel; with_value (string_any "request-id") (int_any 5)]);
    reflexivity.
Defined.

Lemma Value_request_id_is_string (c : Context) :
  request_ids_are_strings c = true -> has_request_id c = true ->
  exists id, Value c requestIDKey = string_any id.
Proof.
  induction c as [| | parent IH k v | parent IH]; simpl; try done.
  intros [Hv Hp]%andb_true_iff Hhas.
  destruct (decide (k = requestIDKey)) as [-> | Hk].
  - destruct v; try discriminate. by eexists.
  - rewrite bool_decide_eq_false_2 in Hhas by done. auto.
Qed.

(** X4: where every value under [requestIDKey] is a string, [RequestID] returns
    exactly on the requests whose context holds a request ID, and panics
    on all others. *)
Theorem RequestID_returns_iff_has_request_id (r : Request) :
  request_ids_are_strings (Request_Context r) = true ->
  (returns (RequestID r) = true <->
   has_request_id (Request_Context r) = true).
Proof.
  intros Hwf. unfold RequestID. split.
  - intros Hret.
    destruct (has_request_id (Request_Context r)) eqn:Hhas; [done |].
    by rewrite (Value_without_request_id _ Hhas) in Hret.
  - intros Hhas.
    by destruct (Value_request_id_is_string _ Hwf Hhas) as [id ->].
Qed.

(** A request the middleware has populated, with a foreign value below the
    identifier: the invariant holds with a value under the key, and both
    sides of the equivalence are true. *)
Lemma RequestID_returns_iff_has_request_id_witness :
  request_ids_are_strings
    (Request_Context (with_request_id sample_request_with_user "abc-123"))
  = true
  /\ has_request_id
       (Request_Context (with_request_id sample_request_with_user "abc-123"))
     = true
  /\ RequestID (with_request_id sample_request_with_user "abc-123")
     = Return "abc-123"
  /\ (returns (RequestID
                 (with_request_id sample_request_with_user "abc-123")) = true
      <-> has_request_id
            (Request_Context
               (with_request_id sample_request_with_user "abc-123")) = true).
Proof.
  split; [reflexivity |]. split; [reflexivity |]. split; [reflexivity |].
  apply (RequestID_returns_iff_has_request_id
           (with_request_id sample_request_with_user "abc-123")).
  reflexivity.
Defined.

(** X5: the middleware keeps the invariant that a context holds only strings
    under [requestIDKey], and so do foreign steps after it: on the request
    the wrapped handler receives, and on every context derived from it
    with foreign keys, [RequestID] returns the generated identifier. *)
Theorem middleware_request_id_is_stable
    {S W} (next : Handler S W) (fn : RequestIDFunc S)
    (w : W) (r : Request) (s s1 : S) (id : string) :
  fn r s = (Return id, s1) ->
  request_ids_are_strings (Request_Context r) = true ->
  exists r',
    snd (snd (RequestIDMiddleware (logged_handler next)
                (logged_generator W fn) w r (s, []))) =
      [CallGenerator r; CallNext w r']
    /\ request_ids_are_strings (Request_Context r') = true
    /\ forall ops c',
         derive (Request_Context r') ops = Return c' ->
         forallb foreign_op ops = true ->
         request_ids_are_strings c' = true
         /\ RequestID (set_ctx r' c') = Return id.
Proof.
  intros Hfn Hwf. exists (with_request_id r id). split; [| split].
  - by rewrite (RequestIDMiddleware_logged_calls _ _ _ _ _ _ id s1).
  - simpl. by rewrite Hwf.
  - intros ops c' Hderive Hops.
    destruct (derive_foreign _ _ _ Hderive Hops) as (HV & _ & Hwf').
    split.
    + apply Hwf'. simpl. by rewrite Hwf.
    + unfold RequestID. change (Request_Context (set_ctx _ c')) with c'.
      by rewrite HV.
Qed.

Lemma middleware_request_id_is_stable_witness :
  counter_id sample_request_with_user 7 = (Return "req-7", 8)
  /\ request_ids_are_strings (Request_Context sample_request_with_user)
     = true
  /\ exists r',
       snd (snd (RequestIDMiddleware (logged_handler noop_handler)
                   (logged_generator nat counter_id)
                   0%nat sample_request_with_user (7, []))) =
         [CallGenerator sample_request_with_user; CallNext 0%nat r']
       /\ request_ids_are_strings (Request_Context r') = true
       /\ forall ops c',
            derive (Request_Context r') ops = Return c' ->
            forallb foreign_op ops = true ->
            request_ids_are_strings c' = true
            /\ RequestID (set_ctx r' c') = Return "req-7".
Proof.
  split; [reflexivity |]. split; [reflexivity |].
  apply (middleware_request_id_is_stable noop_handler counter_id 0%nat
           sample_request_with_user 7 8 "req-7"); reflexivity.
Defined.

(** * Further properties of [problem] *)

(** Once the status line is written, a write to the recorder only appends
    to the body; it reports an error when the status allows no body. *)
Lemma Recorder_Write_after_header (detect : string -> string)
    (buf : string) (rw : ResponseRecorder) :
  wroteHeader rw = true ->
  Recorder_Write detect buf rw =
  (Return (if bodyAllowedForStatus (Code rw)
           then (Z.of_nat (String.length buf), None)
           else (0, Some ErrBodyNotAllowed)),
   {| Code := Code rw; HeaderMap := HeaderMap rw;
      RecBody := RecBody rw ++ buf;
      snapHeader := snapHeader rw; wroteHeader := true |}).
Proof.
  intros Hwrote.
  unfold Recorder_Write, Recorder_writeHeader, go_bind, go_modify, go_ret,
    go_gets.
  cbv beta. rewrite Hwrote. cbv beta iota. rewrite Hwrote.
  cbn [Code]. by destruct (bodyAllowedForStatus (Code rw)).
Qed.

Lemma checkWriteHeaderCode_valid (code : Z) :
  100 <= code <= 999 -> checkWriteHeaderCode code = Return tt.
Proof.
  intros Hcode. unfold checkWriteHeaderCode.
  destruct (Z.ltb_spec code 100); [lia |].
  destruct (Z.ltb_spec 999 code); [lia | reflexivity].
Qed.

Lemma checkWriteHeaderCode_invalid (code : Z) :
  code < 100 \/ 999 < code ->
  checkWriteHeaderCode code
  = Panic ("invalid WriteHeader code " ++ FormatInt code).
Proof.
  intros Hcode. unfold checkWriteHeaderCode.
  destruct (Z.ltb_spec code 100); [reflexivity |].
  destruct (Z.ltb_spec 999 code); [reflexivity | lia].
Qed.

(** X6: the whole response: on a recorder that has sent nothing yet, with a
    three-digit status code and a value that has a JSON encoding,
    [SendProblem] leaves the given status, the headers with the problem
    media type as the headers sent, and as body what was there followed by
    the encoding and one newline.  It returns no error, unless the status
    is one that allows no body (1xx, 204, 304): then it returns the
    recorder's [ErrBodyNotAllowed], with the same response recorded. *)
Theorem SendProblem_response_on_fresh_recorder
    (detect : string -> string) (statusCode : Z) (problem : GoValue)
    (rw : ResponseRecorder) (e : string) :
  wroteHeader rw = false ->
  100 <= statusCode <= 999 ->
  marshal problem = Ok e ->
  SendProblem (H := Recorder_ResponseWriter detect) statusCode problem rw =
  (Return (if bodyAllowedForStatus statusCode then None
           else Some ErrBodyNotAllowed),
   {| Code := statusCode;
      HeaderMap := problem_header (HeaderMap rw);
      RecBody := RecBody rw ++ e ++ String newline "";
      snapHeader := Some (problem_header (HeaderMap rw));
      wroteHeader := true |}).
Proof.
  intros Hfresh Hcode Hmarshal.
  rewrite SendProblem_run, Hmarshal. simpl.
  unfold Recorder_WriteHeader. simpl.
  rewrite Hfresh, (checkWriteHeaderCode_valid _ Hcode).
  rewrite Recorder_Write_after_header by done. cbn [Code].
  by destruct (bodyAllowedForStatus statusCode).
Qed.

Lemma SendProblem_response_on_fresh_recorder_witness :
  wroteHeader NewRecorder = false
  /\ 100 <= 403 <= 999
  /\ 100 <= 204 <= 999
  /\ marshal (Problem_value (only_title "Bad"))
     = Ok (json_text "{'title':'Bad'}")
  /\ SendProblem (H := Recorder_ResponseWriter sample_DetectContentType)
       403 (Problem_value (only_title "Bad")) NewRecorder =
     (Return None,
      {| Code := 403;
         HeaderMap := problem_header (HeaderMap NewRecorder);
         RecBody := RecBody NewRecorder
                    ++ json_text "{'title':'Bad'}" ++ String newline "";
         snapHeader := Some (problem_header (HeaderMap NewRecorder));
         wroteHeader := true |})
  /\ SendProblem (H := Recorder_ResponseWriter sample_DetectContentType)
       204 (Problem_value (only_title "Bad")) NewRecorder =
     (Return (Some ErrBodyNotAllowed),
      {| Code := 204;
         HeaderMap := problem_header (HeaderMap NewRecorder);
         RecBody := RecBody NewRecorder
                    ++ json_text "{'title':'Bad'}" ++ String newline "";
         snapHeader := Some (problem_header (HeaderMap NewRecorder));
         wroteHeader := true |}).
Proof.
  split; [reflexivity |]. split; [lia |]. split; [lia |].
  split; [reflexivity |]. split.
  - apply (SendProblem_response_on_fresh_recorder sample_DetectContentType
             403 (Problem_value (only_title "Bad")) NewRecorder
             (json_text "{'title':'Bad'}")); [reflexivity | lia | reflexivity].
  - apply (SendProblem_response_on_fresh_recorder sample_DetectContentType
             204 (Problem_value (only_title "Bad")) NewRecorder
             (json_text "{'title':'Bad'}")); [reflexivity | lia | reflexivity].
Defined.

(** X7: a value without a JSON encoding leaves half a response: the status
    line and the headers are already sent when the encoder fails, the body
    stays as it was, and the caller gets the encoder's error. *)
Theorem SendProblem_encoding_error_leaves_status_sent
    (detect : string -> string) (statusCode : Z) (problem : GoValue)
    (rw : ResponseRecorder) (err : error_value) :
  wroteHeader rw = false ->
  100 <= statusCode <= 999 ->
  marshal problem = Err err ->
  SendProblem (H := Recorder_ResponseWriter detect) statusCode problem rw =
  (Return (Some err),
   {| Code := statusCode;
      HeaderMap := problem_header (HeaderMap rw);
      RecBody := RecBody rw;
      snapHeader := Some (problem_header (HeaderMap rw));
      wroteHeader := true |}).
Proof.
  intros Hfresh Hcode Hmarshal.
  rewrite SendProblem_run, Hmarshal. simpl.
  unfold Recorder_WriteHeader. simpl.
  by rewrite Hfresh, (checkWriteHeaderCode_valid _ Hcode).
Qed.

Lemma SendProblem_encoding_error_leaves_status_sent_witness :
  wroteHeader NewRecorder = false
  /\ 100 <= 500 <= 999
  /\ marshal (GoSlice [GoInt 1; GoUnsupported "chan int"])
     = Err (UnsupportedTypeError "chan int")
  /\ SendProblem (H := Recorder_ResponseWriter sample_DetectContentType)
       500 (GoSlice [GoInt 1; GoUnsupported "chan int"]) NewRecorder =
     (Return (Some (UnsupportedTypeError "chan int")),
      {| Code := 500;
         HeaderMap := problem_header (HeaderMap NewRecorder);
         RecBody := RecBody NewRecorder;
         snapHeader := Some (problem_header (HeaderMap NewRecorder));
         wroteHeader := true |}).
Proof.
  split; [reflexivity |]. split; [lia |]. split; [reflexivity |].
  apply (SendProblem_encoding_error_leaves_status_sent
           sample_DetectContentType 500
           (GoSlice [GoInt 1; GoUnsupported "chan int"]) NewRecorder
           (UnsupportedTypeError "chan int")); [reflexivity | lia | reflexivity].
Defined.

(** X8: [SendProblem] does not validate the status code: with one that has not
    three digits, on a recorder that has sent nothing yet, the panic of
    [WriteHeader] passes through it.  The content type is then already in
    the header map, but no status and no body are written. *)
Theorem SendProblem_invalid_status_code_panics
    (detect : string -> string) (statusCode : Z) (problem : GoValue)
    (rw : ResponseRecorder) :
  wroteHeader rw = false ->
  statusCode < 100 \/ 999 < statusCode ->
  SendProblem (H := Recorder_ResponseWriter detect) statusCode problem rw =
  (Panic ("invalid WriteHeader code " ++ FormatInt statusCode),
   {| Code := Code rw;
      HeaderMap := problem_header (HeaderMap rw);
      RecBody := RecBody rw;
      snapHeader := snapHeader rw;
      wroteHeader := false |}).
Proof.
  intros Hfresh Hcode.
  rewrite SendProblem_run. simpl.
  unfold Recorder_WriteHeader, set_HeaderMap. simpl.
  by rewrite Hfresh, (checkWriteHeaderCode_invalid _ Hcode).
Qed.

Lemma SendProblem_invalid_status_code_panics_witness :
  wroteHeader NewRecorder = false
  /\ (1000 < 100 \/ 999 < 1000)
  /\ SendProblem (H := Recorder_ResponseWriter sample_DetectContentType)
       1000 (Problem_value sample_problem) NewRecorder =
     (Panic ("invalid WriteHeader code " ++ FormatInt 1000),
      {| Code := Code NewRecorder;
         HeaderMap := problem_header (HeaderMap NewRecorder);
         RecBody := RecBody NewRecorder;
         snapHeader := snapHeader NewRecorder;
         wroteHeader := false |}).
Proof.
  split; [reflexivity |]. split; [lia |].
  apply (SendProblem_invalid_status_code_panics sample_DetectContentType
           1000 (Problem_value sample_problem) NewRecorder);
    [reflexivity | lia].
Defined.

(** X9: after the status line is sent, [SendProblem] cannot change the
    response any more: whatever status code it is given, also an invalid
    one, the status and the headers sent stay those of the first
    [WriteHeader], it does not panic, and the encoding is appended to the
    body. *)
Theorem SendProblem_after_status_sent
    (detect : string -> string) (statusCode : Z) (problem : GoValue)
    (rw : ResponseRecorder) :
  wroteHeader rw = true ->
  let run := SendProblem (H := Recorder_ResponseWriter detect)
               statusCode problem rw in
  returns (fst run) = true
  /\ Code (snd run) = Code rw
  /\ snapHeader (snd run) = snapHeader rw
  /\ RecBody (snd run) =
     RecBody rw ++ match marshal problem with
                   | Ok e => e ++ String newline ""
                   | Err _ => ""
                   end.
Proof.
  intros Hsent. cbv zeta.
  rewrite SendProblem_run. simpl.
  unfold Recorder_WriteHeader. simpl. rewrite Hsent.
  destruct (marshal problem) as [e | err].
  - rewrite Recorder_Write_after_header by done.
    by destruct (bodyAllowedForStatus (Code rw)).
  - simpl. repeat split.
    induction (RecBody rw) as [| a b IH]; [reflexivity |].
    change (String a b = String a (b ++ "")). by f_equal.
Qed.

Lemma SendProblem_after_status_sent_witness :
  wroteHeader
    (snd (SendProblem (H := Recorder_ResponseWriter sample_DetectContentType)
            404 (Problem_value (only_title "Not Found")) NewRecorder)) = true
  /\ (let first_run :=
        SendProblem (H := Recorder_ResponseWriter sample_DetectContentType)
          404 (Problem_value (only_title "Not Found")) NewRecorder in
      let run :=
        SendProblem (H := Recorder_ResponseWriter sample_DetectContentType)
          0 (Problem_value sample_problem) (snd first_run) in
      returns (fst run) = true
      /\ Code (snd run) = Code (snd first_run)
      /\ snapHeader (snd run) = snapHeader (snd first_run)
      /\ RecBody (snd run) =
         RecBody (snd first_run)
         ++ match marshal (Problem_value sample_problem) with
            | Ok e => e ++ String newline ""
            | Err _ => ""
            end).
Proof.
  split; [reflexivity |].
  apply (SendProblem_after_status_sent sample_DetectContentType 0
           (Problem_value sample_problem)).
  reflexivity.
Defined.

(** ** Structs that embed [Problem] *)

Lemma filter_all {A} (f : A -> bool) (l : list A) :
  forallb f l = true -> List.filter f l = l.
Proof.
  induction l as [| x l IH]; simpl; [done |].
  intros [-> Hl]%andb_true_iff. by rewrite IH.
Qed.

Lemma struct_members_app (txt : GoValue -> string)
    (fs gs : list (structField * GoValue)) :
  struct_members txt (fs ++ gs)%list =
  (struct_members txt fs ++ struct_members txt gs)%list.
Proof.
  unfold struct_members, emitted_fields.
  by rewrite List.filter_app, List.map_app.
Qed.

(** With fresh names nothing is hidden: the fields are those of
    [Problem], then the declared ones. *)
Lemma typeFields_embedding_fresh (p : Problem)
    (ext : list (structField * GoValue)) :
  fresh_names ext = true ->
  typeFields_embedding (Problem_fields p) ext
  = (Problem_fields p ++ ext)%list.
Proof.
  intros [Hdistinct Hfresh]%andb_true_iff.
  unfold typeFields_embedding. rewrite (filter_all _ ext Hdistinct).
  f_equal. simpl in Hfresh.
  repeat (apply andb_true_iff in Hfresh as [? Hfresh]).
  unfold Problem_fields. simpl.
  repeat match goal with H : Nat.eqb _ 0 = true |- _ => rewrite H; clear H end.
  reflexivity.
Qed.

Lemma Problem_members_value_text (p : Problem) :
  struct_members value_text (Problem_fields p) = Problem_members p.
Proof.
  destruct p as [ty ti st de ins].
  unfold struct_members, emitted_fields, Problem_fields, Problem_members.
  simpl.
  destruct ty, ti, de, ins; destruct (st =? 0); reflexivity.
Qed.

Lemma encodes_value_text (v : GoValue) :
  encodes v = true -> reflectValue v = Ok (value_text v).
Proof.
  unfold encodes, value_text. by destruct (reflectValue v).
Qed.

Lemma marshal_embed_Problem (p : Problem)
    (ext : list (structField * GoValue)) :
  fresh_names ext = true ->
  forallb (fun x => encodes (snd x)) ext = true ->
  marshal (embed_Problem p ext) =
  Ok (object_text (Problem_members p ++ struct_members value_text ext)).
Proof.
  intros Hfresh Hext.
  unfold embed_Problem. rewrite (typeFields_embedding_fresh _ _ Hfresh).
  change (marshal (GoStruct (Problem_fields p ++ ext)))
    with (structEncoder_fields reflectValue (Problem_fields p ++ ext) "{").
  rewrite (structEncoder_fields_object reflectValue value_text).
  - by rewrite struct_members_app, Problem_members_value_text.
  - intros f fv [Hin | Hin]%in_app_or.
    + rewrite (Problem_fields_encode p f fv Hin).
      unfold Problem_fields in Hin. simpl in Hin.
      by destruct Hin as [H | [H | [H | [H | [H | []]]]]];
        injection H as _ <-.
    + apply encodes_value_text.
      rewrite forallb_forall in Hext. apply (Hext (f, fv) Hin).
Qed.

(** The first example of the package comment, as RFC 7807 prints it: the
    status, not set, is left out, and balance and accounts stand beside
    the fields of [Problem]. *)
Example problemExample1_text :
  marshal
    (problemExample1_value
       {| ex1_Problem :=
            {| Type_ := "https://example.com/probs/out-of-credit";
               Title := "You do not have enough credit.";
               Status := 0;
               Detail := "Your current balance is 30, but that costs 50.";
               Instance_ := "/account/12345/msgs/abc" |};
          Balance := 30;
          Accounts := Some ["/account/12345"; "/account/67890"] |})
  = Ok (json_text
          ("{'type':'https://example.com/probs/out-of-credit',"
           ++ "'title':'You do not have enough credit.',"
           ++ "'detail':'Your current balance is 30, but that costs 50.',"
           ++ "'instance':'/account/12345/msgs/abc',"
           ++ "'balance':30,"
           ++ "'accounts':['/account/12345','/account/67890']}")).
Proof. vm_compute. reflexivity. Qed.

Lemma object_text_second_byte (m : string * string)
    (ms : list (string * string)) :
  String.get 1 (object_text (m :: ms)) = Some double_quote.
Proof. rewrite object_text_cons. reflexivity. Qed.

(** X11: the empty object is the text of the [Problem] whose fields are all
    zero, and of no other. *)
Theorem marshal_Problem_empty_object_iff (p : Problem) :
  marshal (Problem_value p) = Ok "{}" <->
  p = {| Type_ := ""; Title := ""; Status := 0; Detail := "";
         Instance_ := "" |}.
Proof.
  rewrite marshal_Problem. split.
  - intros Htext.
    apply (f_equal (fun t => match t with Ok t => t | Err _ => "" end))
      in Htext.
    destruct (Problem_members p) as [| m ms] eqn:Hmembers.
    + destruct p as [ty ti st de ins]. unfold Problem_members in Hmembers.
      simpl in Hmembers.
      destruct (Z.eqb_spec st 0) as [-> | Hst];
        destruct ty, ti, de, ins; try discriminate Hmembers.
      reflexivity.
    + pose proof (object_text_second_byte m ms) as Hbyte.
      rewrite Htext in Hbyte. discriminate Hbyte.
  - intros ->. reflexivity.
Qed.

(** ** The bytes of an encoding *)

Lemma string_forallb_app (f : ascii -> bool) (a b : string) :
  string_forallb f (a ++ b) = string_forallb f a && string_forallb f b.
Proof.
  induction a as [| c a IH]; [reflexivity |].
  change (f c && string_forallb f (a ++ b)
          = f c && string_forallb f a && string_forallb f b).
  by rewrite IH, andb_assoc.
Qed.

Lemma high_byte_is_safe (c : ascii) :
  (byte_val c <? 128) = false -> html_safe_byte c = true.
Proof. destruct c as [[] [] [] [] [] [] [] []]; vm_compute; congruence. Qed.

Lemma htmlSafeSet_is_safe (c : ascii) :
  htmlSafeSet c = true -> html_safe_byte c = true.
Proof. destruct c as [[] [] [] [] [] [] [] []]; vm_compute; congruence. Qed.

Lemma escape_byte_is_safe (c : ascii) :
  string_forallb html_safe_byte (escape_byte c) = true.
Proof. destruct c as [[] [] [] [] [] [] [] []]; vm_compute; congruence. Qed.

(** A rune that [DecodeRuneInString] accepts is followed by as many bytes
    that are not ASCII as its width says. *)
Lemma first_of_high_byte (s0 : Z) :
  128 <= s0 ->
  In (first s0) [241; 2; 19; 3; 35; 52; 4; 68].
Proof.
  intros Hhigh. unfold first, xx.
  repeat match goal with
    | |- context [if ?x <? ?y then _ else _] =>
        destruct (Z.ltb_spec x y); try lia
    | |- context [if ?x =? ?y then _ else _] =>
        destruct (Z.eqb_spec x y)
    end; simpl; tauto.
Qed.

Ltac decode_step H :=
  match type of H with
  | context [Z.land (Zpos ?k) 7] =>
      let v := eval vm_compute in (Z.land (Zpos k) 7) in
      change (Z.land (Zpos k) 7) with v in H
  | context [acceptRanges (Z.shiftr (Zpos ?k) 4)] =>
      let v := eval vm_compute in (acceptRanges (Z.shiftr (Zpos k) 4)) in
      change (acceptRanges (Z.shiftr (Zpos k) 4)) with v in H;
      cbn [fst snd] in H
  | context [if ?x >=? ?y then _ else _] =>
      rewrite (Z.geb_leb x y) in H
  | context [if ?x <? ?y then _ else _] =>
      destruct (Z.ltb_spec x y); try lia
  | context [if ?x =? ?y then _ else _] =>
      destruct (Z.eqb_spec x y); try lia
  | context [if ?x <=? ?y then _ else _] =>
      destruct (Z.leb_spec x y); try lia
  | context [(?x <? ?y) || _] =>
      destruct (Z.ltb_spec x y); cbn [orb] in H
  end.

(** A rune that [DecodeRuneInString] accepts is followed by as many bytes
    that are not ASCII as its width says. *)
Lemma DecodeRuneInString_tail (b : ascii) (rest : string) (c size : Z) :
  (byte_val b <? 128) = false ->
  DecodeRuneInString (String b rest) = (c, size) ->
  (c =? RuneError) && (size =? 1) = false ->
  high_prefix (Z.to_nat (size - 1)) rest = true.
Proof.
  intros Hhigh Hdecode Hvalid.
  apply Z.ltb_ge in Hhigh.
  unfold DecodeRuneInString in Hdecode. cbv zeta in Hdecode.
  change (byte_at (String b rest) 0) with (byte_val b) in Hdecode.
  pose proof (first_of_high_byte _ Hhigh) as Hfirst.
  remember (first (byte_val b)) as x eqn:Hx. clear Hx.
  remember (byte_val b) as s0 eqn:Hs0. clear Hs0.
  unfold as_, xx, locb, hicb in Hdecode.
  simpl in Hfirst.
  destruct Hfirst as [<- | [<- | [<- | [<- | [<- | [<- | [<- | [<- | []]]]]]]]];
    destruct rest as [| b1 [| b2 [| b3 r]]];
    cbn [String.length byte_at String.get] in Hdecode;
    repeat decode_step Hdecode;
    injection Hdecode as <- <-; try discriminate Hvalid;
    try change (Z.to_nat (2 - 1)) with 1%nat;
    try change (Z.to_nat (3 - 1)) with 2%nat;
    try change (Z.to_nat (4 - 1)) with 3%nat;
    cbn [high_prefix];
    rewrite ?andb_true_iff, ?Z.leb_le; repeat split; lia.
Qed.

(** The loop of [appendString] writes safe bytes only: what it copies is
    in [htmlSafeSet] or belongs to a rune of several bytes, a byte that is
    not valid UTF-8 becomes the replacement character, and the rest is
    escaped. *)
Lemma appendString_loop_is_safe (src : string) (pending : tail_bytes) :
  tail_is_high pending src = true ->
  string_forallb html_safe_byte (appendString_loop pending src) = true.
Proof.
  revert pending. induction src as [| b rest IH]; intros pending Htail;
    [reflexivity |].
  assert (string_forallb html_safe_byte
            (appendString_loop (copy_tail 0) (String b rest)) = true)
    as Hfresh.
  { cbn [appendString_loop].
    destruct (byte_val b <? 128) eqn:Hb.
    - destruct (htmlSafeSet b) eqn:Hsafe.
      + cbn [string_forallb].
        by rewrite (htmlSafeSet_is_safe _ Hsafe), (IH (copy_tail 0)).
      + by rewrite string_forallb_app, escape_byte_is_safe,
          (IH (copy_tail 0)).
    - destruct (DecodeRuneInString (String b rest)) as [c size] eqn:Hdecode.
      destruct ((c =? RuneError) && (size =? 1)) eqn:Hvalid.
      + rewrite string_forallb_app, (IH (copy_tail 0)) by done.
        reflexivity.
      + destruct ((c =? 8232) || (c =? 8233)) eqn:Hsep.
        * rewrite string_forallb_app. cbn [string_forallb].
          rewrite (IH (skip_tail _)) by done.
          apply orb_true_iff in Hsep as [->%Z.eqb_eq | ->%Z.eqb_eq];
            reflexivity.
        * cbn [string_forallb].
          rewrite (high_byte_is_safe _ Hb). apply IH.
          by apply (DecodeRuneInString_tail b rest c size). }
  destruct pending as [[| n] | [| n]]; try exact Hfresh.
  - cbn [appendString_loop string_forallb].
    cbn [tail_is_high high_prefix] in Htail.
    apply andb_true_iff in Htail as [Hb Hrest].
    rewrite (IH (copy_tail n)) by done.
    rewrite high_byte_is_safe; [reflexivity |].
    apply Z.ltb_ge. by apply Z.leb_le.
  - cbn [appendString_loop]. by apply IH.
Qed.

Lemma appendString_is_safe (s : string) :
  string_forallb html_safe_byte (appendString s) = true.
Proof.
  unfold appendString. cbn [string_forallb].
  by rewrite string_forallb_app, appendString_loop_is_safe.
Qed.

Lemma string_of_uint_is_safe (d : Decimal.uint) :
  string_forallb html_safe_byte (NilEmpty.string_of_uint d) = true.
Proof. induction d; simpl; by rewrite ?IHd. Qed.

Lemma FormatInt_is_safe (z : Z) :
  string_forallb html_safe_byte (FormatInt z) = true.
Proof.
  unfold FormatInt, NilZero.string_of_int, NilZero.string_of_uint.
  destruct (Z.to_int z) as [d | d]; destruct d;
    try reflexivity; apply (string_of_uint_is_safe (_ d)) ||
    (cbn [string_forallb]; apply (string_of_uint_is_safe (_ d))).
Qed.

(** Induction on Go values, with the elements of a slice and the fields
    of a struct as smaller values. *)
Lemma GoValue_nested_ind (P : GoValue -> Prop) :
  P GoNil ->
  (forall b, P (GoBool b)) ->
  (forall z, P (GoInt z)) ->
  (forall s, P (GoString s)) ->
  (forall elems, Forall P elems -> P (GoSlice elems)) ->
  (forall fields, Forall (fun x => P (snd x)) fields -> P (GoStruct fields)) ->
  (forall t, P (GoUnsupported t)) ->
  forall v, P v.
Proof.
  intros Hnil Hbool Hint Hstring Hslice Hstruct Hunsupported.
  fix IH 1. intros [| b | z | s | elems | fields | t].
  - exact Hnil.
  - apply Hbool.
  - apply Hint.
  - apply Hstring.
  - apply Hslice. induction elems as [| x elems IHelems]; constructor.
    + apply IH.
    + exact IHelems.
  - apply Hstruct. induction fields as [| [f fv] fields IHfields];
      constructor.
    + apply IH.
    + exact IHfields.
  - apply Hunsupported.
Qed.

Section encoders_safe.
Variable encoder : GoValue -> result string.

Lemma arrayEncoder_elems_is_safe (elems : list GoValue) :
  Forall (fun x => forall e, encoder x = Ok e ->
                   string_forallb html_safe_byte e = true) elems ->
  forall i rest, arrayEncoder_elems encoder elems i = Ok rest ->
  string_forallb html_safe_byte rest = true.
Proof.
  induction 1 as [| x elems Hx Helems IH]; intros i rest Hrest.
  - by injection Hrest as <-.
  - cbn [arrayEncoder_elems] in Hrest.
    destruct (encoder x) as [val |] eqn:Hval; [| discriminate].
    destruct (arrayEncoder_elems encoder elems (S i)) as [rest' |] eqn:Hrest';
      [| discriminate].
    injection Hrest as <-.
    rewrite !string_forallb_app, (Hx _ eq_refl), (IH _ _ Hrest').
    by destruct (Nat.ltb 0 i).
Qed.

Lemma structEncoder_fields_is_safe (fs : list (structField * GoValue)) :
  Forall (fun x => forall e, encoder (snd x) = Ok e ->
                   string_forallb html_safe_byte e = true) fs ->
  forall next text,
    string_forallb html_safe_byte next = true ->
    structEncoder_fields encoder fs next = Ok text ->
    string_forallb html_safe_byte text = true.
Proof.
  induction 1 as [| [f fv] fs Hfv Hfs IH]; intros next text Hnext Htext.
  - injection Htext as <-. by destruct (String.eqb next "{").
  - cbn [structEncoder_fields] in Htext.
    destruct (omitEmpty f && isEmptyValue fv); [by apply (IH next) |].
    destruct (encoder fv) as [val |] eqn:Hval; [| discriminate].
    destruct (structEncoder_fields encoder fs ",") as [rest |] eqn:Hrest;
      [| discriminate].
    injection Htext as <-.
    rewrite !string_forallb_app, Hnext, appendString_is_safe.
    rewrite (Hfv _ Hval), (IH "," rest eq_refl Hrest). reflexivity.
Qed.
End encoders_safe.

(** Every JSON text the encoder produces is one line of bytes that are
    safe in HTML: no control character, no line break, none of the
    characters [<], [>] and [&]. *)
Lemma reflectValue_is_safe (v : GoValue) :
  forall e, reflectValue v = Ok e ->
            string_forallb html_safe_byte e = true.
Proof.
  induction v as [| b | z | s | elems IH | fields IH | t]
    using GoValue_nested_ind; intros e He.
  - by injection He as <-.
  - injection He as <-. by destruct b.
  - injection He as <-. apply FormatInt_is_safe.
  - injection He as <-. apply appendString_is_safe.
  - cbn [reflectValue] in He.
    destruct (arrayEncoder_elems reflectValue elems 0) as [rest |] eqn:Hrest;
      [| discriminate].
    injection He as <-. cbn [string_forallb].
    change ("[" ++ rest) with (String "[" rest). cbn [string_forallb].
    by rewrite (arrayEncoder_elems_is_safe reflectValue elems IH 0%nat rest).
  - cbn [reflectValue] in He.
    by apply (structEncoder_fields_is_safe reflectValue fields IH "{" e).
  - discriminate.
Qed.

(** X12: the body [SendProblem] writes is one line: the encoding, which holds
    no line break, no other control character and none of [<], [>] and
    [&], then the newline that ends it.  This holds for every value and on
    every writer. *)
Theorem SendProblem_body_is_one_safe_line `{ResponseWriter W}
    (statusCode : Z) (problem : GoValue) (w : W) (b : string) :
  In (CallWrite b)
    (snd (snd (SendProblem (W := Recording W) statusCode problem (w, []))))
  ->
  exists e,
    marshal problem = Ok e
    /\ b = e ++ String newline ""
    /\ string_forallb html_safe_byte e = true.
Proof.
  rewrite SendProblem_recorded_calls. cbn [app].
  intros [Hcall | [Hcall | Hcall]]; try discriminate.
  destruct (returns _); [| destruct Hcall].
  destruct (marshal problem) as [e |] eqn:Hmarshal; [| destruct Hcall].
  destruct Hcall as [Hcall | []]. injection Hcall as <-.
  exists e. repeat split. by apply (reflectValue_is_safe problem).
Qed.

Lemma SendProblem_body_is_one_safe_line_witness :
  In (CallWrite (json_text "{'title':'a\u003cb'}" ++ String newline ""))
    (snd (snd (SendProblem (W := Recording ResponseRecorder)
                 (H := Recording_ResponseWriter
                         (H := Recorder_ResponseWriter
                                 sample_DetectContentType))
                 400 (Problem_value (only_title "a<b"))
                 (NewRecorder, []))))
  /\ exists e,
       marshal (Problem_value (only_title "a<b")) = Ok e
       /\ json_text "{'title':'a\u003cb'}" ++ String newline ""
          = e ++ String newline ""
       /\ string_forallb html_safe_byte e = true.
Proof.
  assert (In (CallWrite (json_text "{'title':'a\u003cb'}"
                         ++ String newline ""))
            (snd (snd (SendProblem (W := Recording ResponseRecorder)
                         (H := Recording_ResponseWriter
                                 (H := Recorder_ResponseWriter
                                         sample_DetectContentType))
                         400 (Problem_value (only_title "a<b"))
                         (NewRecorder, []))))) as Hcall.
  { vm_compute. right. right. left. reflexivity. }
  split; [exact Hcall |].
  exact (SendProblem_body_is_one_safe_line
           (H := Recorder_ResponseWriter sample_DetectContentType)
           400 (Problem_value (only_title "a<b")) NewRecorder _ Hcall).
Defined.

(** X13: after [SendProblem] the content type can be read from the recorder's
    headers with [Get] under every spelling of the key that
    [CanonicalMIMEHeaderKey] maps to Content-Type. *)
Theorem SendProblem_content_type_Get
    (detect : string -> string) (statusCode : Z) (problem : GoValue)
    (rw : ResponseRecorder) (key : string) :
  CanonicalMIMEHeaderKey key = "Content-Type" ->
  Header_Get (HeaderMap (snd (SendProblem
                                (H := Recorder_ResponseWriter detect)
                                statusCode problem rw))) key
  = contentType.
Proof.
  intros Hkey. rewrite SendProblem_recorder_HeaderMap.
  unfold Header_Get. by rewrite Hkey, problem_header_lookup.
Qed.

Lemma SendProblem_content_type_Get_witness :
  CanonicalMIMEHeaderKey "content-type" = "Content-Type"
  /\ Header_Get
       (HeaderMap (snd (SendProblem
                          (H := Recorder_ResponseWriter
                                  sample_DetectContentType)
                          400 (Problem_value sample_problem)
                          recorder_with_json_type))) "content-type"
     = contentType.
Proof.
  split; [reflexivity |].
  apply (SendProblem_content_type_Get sample_DetectContentType 400
           (Problem_value sample_problem) recorder_with_json_type
           "content-type").
  reflexivity.
Defined.

(** * Properties of the example server *)

(** X14: on a recorder that has sent nothing yet and with a form that parses,
    [handleRoot] answers by the first value of prob: status 403 for ex1 and
    400 for ex2, both under the problem media type, and status 200 under
    plain JSON for anything else.  It returns, logs nothing, and the body
    is the encoding of the value of that branch and a newline. *)
Theorem handleRoot_answers_by_prob
    (ParseForm : Request -> gmap string (list string) * error)
    (detect : string -> string) (r : Request)
    (form : gmap string (list string)) (log : list string) :
  ParseForm r = (form, None) ->
  let run := handleRoot (H := Recorder_ResponseWriter detect) ParseForm r
               (NewRecorder, log) in
  let rw := fst (snd run) in
  let answer :=
    if String.eqb (Values_Get form "prob") "ex1"
    then (403, contentType, problemExample1_value example1)
    else if String.eqb (Values_Get form "prob") "ex2"
    then (400, contentType, problemExample2_value example2)
    else (200, "application/json", hello_value) in
  fst run = Return tt
  /\ snd (snd run) = log
  /\ Code rw = fst (fst answer)
  /\ (snapHeader rw ≫= (fun h => h !! "Content-Type"))
     = Some [snd (fst answer)]
  /\ Ok (RecBody rw) =
     match marshal (snd answer) with
     | Ok e => Ok (e ++ String newline "")
     | Err err => Err err
     end.
Proof.
  intros Hform. cbv zeta. unfold handleRoot. rewrite Hform.
  destruct (String.eqb (Values_Get form "prob") "ex1");
    [| destruct (String.eqb (Values_Get form "prob") "ex2")];
    vm_compute; repeat split.
Qed.

Lemma handleRoot_answers_by_prob_witness :
  (fun _ : Request => ({["prob" := ["ex2"; "ex1"]]}, None))
    sample_request
  = (({["prob" := ["ex2"; "ex1"]]} : gmap string (list string)),
     (None : error))
  /\ (let run :=
        handleRoot (H := Recorder_ResponseWriter sample_DetectContentType)
          (fun _ => ({["prob" := ["ex2"; "ex1"]]}, None)) sample_request
          (NewRecorder, []) in
      let rw := fst (snd run) in
      let answer :=
        if String.eqb
             (Values_Get {["prob" := ["ex2"; "ex1"]]} "prob") "ex1"
        then (403, contentType, problemExample1_value example1)
        else if String.eqb
                  (Values_Get {["prob" := ["ex2"; "ex1"]]} "prob") "ex2"
        then (400, contentType, problemExample2_value example2)
        else (200, "application/json", hello_value) in
      fst run = Return tt
      /\ snd (snd run) = []
      /\ Code rw = fst (fst answer)
      /\ (snapHeader rw ≫= (fun h => h !! "Content-Type"))
         = Some [snd (fst answer)]
      /\ Ok (RecBody rw) =
         match marshal (snd answer) with
         | Ok e => Ok (e ++ String newline "")
         | Err err => Err err
         end).
Proof.
  split; [reflexivity |].
  apply (handleRoot_answers_by_prob
           (fun _ => ({["prob" := ["ex2"; "ex1"]]}, None))
           sample_DetectContentType sample_request
           {["prob" := ["ex2"; "ex1"]]} []).
  reflexivity.
Defined.

(** One run of [sendResponse] on any writer, call by call. *)
Lemma sendResponse_run `{ResponseWriter W} (statusCode : Z)
    (detail : GoValue) (w : W) :
  sendResponse statusCode detail w =
  match WriteHeader statusCode
          (Header_store
             (Header_Set (Header_of w) "Content-Type" "application/json") w)
  with
  | (Panic msg, w2) => (Panic msg, w2)
  | (Return _, w2) =>
      match marshal detail with
      | Err e => (Return (Some e), w2)
      | Ok e =>
          match Write (e ++ String newline "") w2 with
          | (Return res, w3) => (Return (snd res), w3)
          | (Panic msg, w3) => (Panic msg, w3)
          end
      end
  end.
Proof.
  unfold sendResponse, ResponseWriter_Header_Set, Encoder_Encode,
    go_bind, go_gets, go_modify, go_ret.
  destruct (WriteHeader statusCode _) as [[[] | msg] w2]; [| reflexivity].
  destruct (marshal detail) as [e | e]; [| reflexivity].
  destruct (Write _ w2) as [[res | msg] w3]; reflexivity.
Qed.

(** X15: [handleRoot] logs what fails and goes on.  When the form does not
    parse it logs that and leaves the response untouched, on any writer.
    When the form parses and, on any writer, the content type is stored,
    [WriteHeader] returns and the [Write] of the body returns an error,
    it logs that error, as a problem it failed to send for ex1 and ex2 and
    as a response otherwise.  In both cases it returns, with exactly one
    new line in the log. *)
Theorem handleRoot_logs_failures
    (ParseForm : Request -> gmap string (list string) * error)
    (r : Request) (form : gmap string (list string)) (log : list string) :
  (forall (e : error_value) `(ResponseWriter W) (w : W),
      ParseForm r = (form, Some e) ->
      handleRoot ParseForm r (w, log)
      = (Return tt,
         (w, (log ++ [("failed to parse form; " ++ Error e)%string])%list)))
  /\ (forall `(ResponseWriter W) (w w2 w3 : W) (n : Z) (e : error_value),
        let p := Values_Get form "prob" in
        let sent_problem := String.eqb p "ex1" || String.eqb p "ex2" in
        let statusCode :=
          if String.eqb p "ex1" then 403
          else if String.eqb p "ex2" then 400 else 200 in
        let media :=
          if sent_problem then "application/problem+json"
          else "application/json" in
        let value :=
          if String.eqb p "ex1" then problemExample1_value example1
          else if String.eqb p "ex2" then problemExample2_value example2
          else hello_value in
        ParseForm r = (form, None) ->
        WriteHeader statusCode
          (Header_store (Header_Set (Header_of w) "Content-Type" media) w)
        = (Return tt, w2) ->
        Write (value_text value ++ String newline "") w2
        = (Return (n, Some e), w3) ->
        handleRoot ParseForm r (w, log)
        = (Return tt,
           (w3,
            (log ++ [((if sent_problem then "failed to send problem; "
                       else "failed to send response; ")
                      ++ Error e)%string])%list))).
Proof.
  split.
  - intros e W H w Hparse. unfold handleRoot. by rewrite Hparse.
  - intros W H w w2 w3 n e. cbv zeta. intros Hparse.
    unfold handleRoot. rewrite Hparse.
    destruct (String.eqb (Values_Get form "prob") "ex1");
      [| destruct (String.eqb (Values_Get form "prob") "ex2")];
      cbn [orb]; intros Hstatus Hwrite;
      unfold go_bind, on_writer;
      rewrite ?SendProblem_run, ?sendResponse_run;
      unfold problem_header, contentType; rewrite Hstatus;
      match goal with
      | |- context [marshal ?v] =>
          change (marshal v) with (Ok (A := string) (value_text v))
      end;
      cbv beta iota; by rewrite Hwrite.
Qed.

(** A connection that is gone when the problem of ex1 is sent. *)
Lemma handleRoot_logs_failures_witness :
  handleRoot (fun _ => ({["prob" := ["ex1"]]}, None)) sample_request
    (broken_connection, ["started"])
  = (Return tt,
     ({| brokenHeader :=
           {["Content-Type" := ["application/problem+json"]]};
         brokenStatus := Some 403 |},
      ["started"; "failed to send problem; write: broken pipe"])).
Proof.
  destruct (handleRoot_logs_failures
              (fun _ => ({["prob" := ["ex1"]]}, None)) sample_request
              {["prob" := ["ex1"]]} ["started"]) as [_ Hwrite].
  apply (Hwrite brokenWriter brokenWriter_ResponseWriter broken_connection
           {| brokenHeader :=
                {["Content-Type" := ["application/problem+json"]]};
              brokenStatus := Some 403 |}
           {| brokenHeader :=
                {["Content-Type" := ["application/problem+json"]]};
              brokenStatus := Some 403 |}
           0 (errorString "write: broken pipe"));
    reflexivity.
Defined.

(** ** The example structs *)

Lemma concat_array_tail (x : string) (xs : list string) :
  String.concat "," (x :: xs) ++ "]" = x ++ array_tail xs.
Proof.
  revert x. induction xs as [| x' xs IH]; intros x; [reflexivity |].
  change (String.concat "," (x :: x' :: xs))
    with (x ++ "," ++ String.concat "," (x' :: xs)).
  rewrite !string_app_assoc, IH. reflexivity.
Qed.

Lemma arrayEncoder_strings (l : list string) (i : nat) :
  arrayEncoder_elems reflectValue (map GoString l) (S i)
  = Ok (array_tail (map appendString l)).
Proof.
  revert i. induction l as [| x l IH]; intros i; [reflexivity |].
  cbn [map arrayEncoder_elems reflectValue]. by rewrite IH.
Qed.

Lemma reflectValue_strings (l : option (list string)) :
  reflectValue (strings_value l) = Ok (strings_text l).
Proof.
  destruct l as [[| x l] |]; try reflexivity.
  cbn [strings_value strings_text map reflectValue arrayEncoder_elems].
  rewrite arrayEncoder_strings.
  change (map appendString (x :: l))
    with (appendString x :: map appendString l).
  by rewrite concat_array_tail.
Qed.

(** X16: the struct of the first example always has its own two members, also
    when they are zero or nil: its fields are not tagged omitempty.  A
    balance of zero is written as 0 and the nil slice of accounts as null,
    after whatever non-zero fields the embedded [Problem] has. *)
Theorem problemExample1_keeps_zero_fields (e : problemExample1) :
  marshal (problemExample1_value e) =
  Ok (object_text
        (Problem_members (ex1_Problem e)
         ++ [("balance", FormatInt (Balance e));
             ("accounts", strings_text (Accounts e))])).
Proof.
  unfold problemExample1_value.
  rewrite marshal_embed_Problem.
  - unfold struct_members, emitted_fields, value_text.
    cbn [List.filter map omitEmpty andb negb fst snd name reflectValue].
    by rewrite reflectValue_strings.
  - reflexivity.
  - cbn [forallb snd]. unfold encodes.
    by rewrite reflectValue_strings.
Qed.

(** ** Embedded structs *)

Lemma filter_none {A} (f : A -> bool) (l : list A) :
  (forall x, In x l -> f x = false) -> List.filter f l = [].
Proof.
  induction l as [| x l IH]; intros Hl; [reflexivity |].
  simpl. rewrite (Hl x) by (by left). apply IH.
  intros y Hy. apply Hl. by right.
Qed.

(** In a list of fields with distinct names the fields of the name of one
    of them are that one alone. *)
Lemma filter_same_name (es : list fieldEntry) (e : fieldEntry) :
  List.NoDup (map entry_name es) -> In e es ->
  List.filter (fun x => String.eqb (entry_name x) (entry_name e)) es = [e].
Proof.
  induction es as [| x es IH]; intros Hnodup Hin; [destruct Hin |].
  simpl in Hnodup. apply List.NoDup_cons_iff in Hnodup as [Hx Hes].
  simpl. destruct Hin as [-> | Hin].
  - rewrite String.eqb_refl. f_equal. apply filter_none.
    intros y Hy. apply String.eqb_neq. intros Hname.
    apply Hx. rewrite <- Hname. by apply List.in_map.
  - destruct (String.eqb_spec (entry_name x) (entry_name e)) as [Hname |].
    + exfalso. apply Hx. rewrite Hname. by apply List.in_map.
    + by apply IH.
Qed.

(** Where all names are distinct nothing is hidden: [typeFields] lists
    every field found, in the order of the declaration. *)
Lemma typeFields_distinct (fields : list GoField) :
  List.NoDup (map entry_name (collect_fields fields)) ->
  typeFields fields =
  map (fun e => (entry_field e, entry_value e)) (collect_fields fields).
Proof.
  intros Hnodup. unfold typeFields. f_equal. apply filter_all.
  apply forallb_forall. intros e He. unfold is_dominant.
  rewrite (filter_same_name _ _ Hnodup He).
  unfold dominantField. simpl. rewrite Nat.eqb_refl.
  by apply bool_decide_eq_true_2.
Qed.

Lemma scan_tagged_fields (fs : list (structField * GoValue))
    (index : list nat) (i : nat) :
  map (fun e => (entry_field e, entry_value e))
    (scan_fields collect_field index (tagged_fields fs) i) = fs
  /\ map entry_name (scan_fields collect_field index (tagged_fields fs) i)
     = map (fun x => name (fst x)) fs.
Proof.
  revert i. induction fs as [| [f fv] fs IH]; intros i; [done |].
  destruct (IH (S i)) as [Hpairs Hnames]. simpl.
  by rewrite Hpairs, Hnames.
Qed.

Lemma marshal_Problem_fields_app (p : Problem)
    (ext : list (structField * GoValue)) :
  forallb (fun x => encodes (snd x)) ext = true ->
  marshal (GoStruct (Problem_fields p ++ ext)) =
  Ok (object_text (Problem_members p ++ struct_members value_text ext)).
Proof.
  intros Hext.
  change (marshal (GoStruct (Problem_fields p ++ ext)))
    with (structEncoder_fields reflectValue (Problem_fields p ++ ext) "{").
  rewrite (structEncoder_fields_object reflectValue value_text).
  - by rewrite struct_members_app, Problem_members_value_text.
  - intros f fv [Hin | Hin]%in_app_or.
    + rewrite (Problem_fields_encode p f fv Hin).
      unfold Problem_fields in Hin. simpl in Hin.
      by destruct Hin as [H | [H | [H | [H | [H | []]]]]];
        injection H as _ <-.
    + apply encodes_value_text.
      rewrite forallb_forall in Hext. apply (Hext (f, fv) Hin).
Qed.

(** X10: what embedding does.  A struct that embeds [Problem] and
    declares further fields, under names distinct from each other and from
    those of [Problem] and with values that have an encoding, is one flat
    JSON object: [typeFields] lifts the fields of the embedded [Problem] to
    the level of the others, so the non-zero fields of the [Problem] come
    first and the declared fields follow beside them.  Held in a field with
    a tag of its own instead, the same [Problem] is an object nested under
    that key. *)
Theorem embedding_Problem_flattens_its_fields (p : Problem)
    (ext : list (structField * GoValue)) :
  List.NoDup (Problem_names ++ map (fun x => name (fst x)) ext) ->
  forallb (fun x => encodes (snd x)) ext = true ->
  marshal (embedding_Problem p ext) =
    Ok (object_text (Problem_members p ++ struct_members value_text ext))
  /\ forall key,
       ~ In key (map (fun x => name (fst x)) ext) ->
       marshal (holding_Problem key p ext) =
       Ok (object_text
             ((key, object_text (Problem_members p))
                :: struct_members value_text ext)).
Proof.
  intros Hnames Hext. split.
  - unfold embedding_Problem, struct_value.
    rewrite typeFields_distinct.
    + unfold collect_fields. cbn [scan_fields collect_field].
      rewrite List.map_app.
      rewrite (proj1 (scan_tagged_fields _ _ _)).
      rewrite (proj1 (scan_tagged_fields _ _ _)).
      by apply marshal_Problem_fields_app.
    + unfold collect_fields. cbn [scan_fields collect_field].
      rewrite List.map_app.
      rewrite (proj2 (scan_tagged_fields _ _ _)).
      rewrite (proj2 (scan_tagged_fields _ _ _)).
      exact Hnames.
  - intros key Hkey.
    apply List.NoDup_app_remove_l in Hnames.
    unfold holding_Problem, struct_value.
    rewrite typeFields_distinct.
    + unfold collect_fields. cbn [scan_fields collect_field app map].
      cbn [entry_field entry_value].
      rewrite (proj1 (scan_tagged_fields _ _ _)).
      match goal with
      | |- marshal (GoStruct ?fs) = _ =>
          change (marshal (GoStruct fs))
            with (structEncoder_fields reflectValue fs "{")
      end.
      rewrite (structEncoder_fields_object reflectValue value_text).
      * unfold struct_members at 1, emitted_fields.
        cbn [List.filter omitEmpty andb negb fst snd map name].
        unfold value_text at 1.
        change (reflectValue (Problem_value p))
          with (marshal (Problem_value p)).
        by rewrite marshal_Problem.
      * intros f fv [Hin | Hin].
        -- injection Hin as _ <-. unfold value_text.
           change (reflectValue (Problem_value p))
             with (marshal (Problem_value p)).
           by rewrite marshal_Problem.
        -- apply encodes_value_text.
           rewrite forallb_forall in Hext. apply (Hext (f, fv) Hin).
    + unfold collect_fields. cbn [scan_fields collect_field app map].
      rewrite (proj2 (scan_tagged_fields _ _ _)).
      by constructor.
Qed.

Lemma embedding_Problem_flattens_its_fields_witness :
  List.NoDup
    (Problem_names
     ++ map (fun x => name (fst x))
          [ ({| name := "balance"; omitEmpty := false |}, GoInt 30);
            ({| name := "accounts"; omitEmpty := false |},
             strings_value (Some ["/account/12345"])) ])
  /\ forallb (fun x => encodes (snd x))
       [ ({| name := "balance"; omitEmpty := false |}, GoInt 30);
         ({| name := "accounts"; omitEmpty := false |},
          strings_value (Some ["/account/12345"])) ] = true
  /\ marshal
       (embedding_Problem (only_title "Out of credit")
          [ ({| name := "balance"; omitEmpty := false |}, GoInt 30);
            ({| name := "accounts"; omitEmpty := false |},
             strings_value (Some ["/account/12345"])) ])
     = Ok (json_text
             "{'title':'Out of credit','balance':30,'accounts':['/account/12345']}")
  /\ marshal
       (holding_Problem "problem" (only_title "Out of credit")
          [ ({| name := "balance"; omitEmpty := false |}, GoInt 30);
            ({| name := "accounts"; omitEmpty := false |},
             strings_value (Some ["/account/12345"])) ])
     = Ok (json_text
             "{'problem':{'title':'Out of credit'},'balance':30,'accounts':['/account/12345']}").
Proof.
  assert (List.NoDup
            (Problem_names
             ++ map (fun x => name (fst x))
                  [ ({| name := "balance"; omitEmpty := false |}, GoInt 30);
                    ({| name := "accounts"; omitEmpty := false |},
                     strings_value (Some ["/account/12345"])) ]))
    as Hnames.
  { cbn [Problem_names app map fst name].
    repeat (apply List.NoDup_cons;
            [simpl; intuition discriminate |]).
    apply List.NoDup_nil. }
  split; [exact Hnames |]. split; [reflexivity |].
  destruct (embedding_Problem_flattens_its_fields
              (only_title "Out of credit") _ Hnames eq_refl)
    as [Hflat Hnested].
  split.
  - rewrite Hflat. reflexivity.
  - rewrite (Hnested "problem"); [reflexivity |].
    simpl. intuition discriminate.
Defined.

(** A declared field hides the embedded field of its name, and a name
    that two embedded structs bring in at the same depth is dropped. *)
Example declared_title_hides_embedded_title :
  marshal (embedding_Problem sample_problem
             [({| name := "title"; omitEmpty := false |}, GoInt 1)])
  = Ok (json_text "{'type':'https://example.com/x','status':400,'title':1}").
Proof. vm_compute. reflexivity. Qed.

(** The values of the two example structs are what [typeFields] gives for
    their declarations. *)
Lemma problemExample1_value_as_declared (e : problemExample1) :
  problemExample1_value e =
  embedding_Problem (ex1_Problem e)
    [ ({| name := "balance"; omitEmpty := false |}, GoInt (Balance e));
      ({| name := "accounts"; omitEmpty := false |},
       strings_value (Accounts e)) ].
Proof. reflexivity. Qed.

Lemma problemExample2_value_as_declared (e : problemExample2) :
  problemExample2_value e =
  embedding_Problem (ex2_Problem e)
    [ ({| name := "invalid-params"; omitEmpty := false |},
       match InvalidParams e with
       | None => GoNil
       | Some l => GoSlice (map invalidParam_value l)
       end) ].
Proof. reflexivity. Qed.
